(** * Sales agent engine: rule evaluation, aggregation and report composition

    A shallow embedding of [SalesAgentEngine] (agent_engine.py).

    Modelling choices, fixed once for the whole development:
    - a number is the rational value ([Q]) of a double; a numeric cell
      written as a decimal stands for the nearest double ([as_double]), the
      way [read_csv] parses it, and an int64 cell is converted the same way
      where the code divides or formats it; [/], [*] and [-] round their
      exact result to the nearest double ([truediv], [fmul], [fsub]);
      Python's [<] and [>] are exact ([py_lt], [py_gt]); NaN, infinities
      and the sign of zero are not represented;
    - the operations of pandas that the aggregator calls ([sort_values],
      [Series.sum], [Series.mean]) are parameters of the model ([Pandas]);
    - the status and severity strings ['OK'], ['WARNING'], ['CRITICAL'] are
      the three constructors of [Level];
    - a row ([pd.Series]) is a record whose optional columns are [option]
      fields, so that [row.get(k, d)] is [get (k row) d], and
      [get_number (k row) d] on a numeric column;
    - a table ([pd.DataFrame]) is the list of its rows, in index order;
    - exceptions are the [Raise] results of a small error monad;
    - [datetime.now()] is read from an explicit clock. *)

From Stdlib Require Import QArith Qabs ZArith List Bool String Ascii Lia.
From Stdlib Require Import DecimalString Permutation Sorted Lqa.
Import ListNotations.

Local Open Scope string_scope.
Local Open Scope Z_scope.
Local Open Scope Q_scope.

(** ** Python primitives used by the engine *)

Definition py_lt (x y : Q) : bool := negb (Qle_bool y x).
Definition py_gt (x y : Q) : bool := py_lt y x.

(** [row.get(key, default)] on an optional column. *)
Definition get {A : Type} (cell : option A) (default : A) : A :=
  match cell with
  | Some v => v
  | None => default
  end.

(** Decimal digits of a natural number, as [str(n)] prints them. *)
Definition digits (n : N) : string := NilZero.string_of_uint (N.to_uint n).

Fixpoint zeros (k : nat) : string :=
  match k with
  | O => ""
  | S k' => "0" ++ zeros k'
  end.

(** [s.zfill(width)] for a string of digits. *)
Definition zfill (width : nat) (s : string) : string :=
  zeros (width - String.length s) ++ s.

(** Insertion of the thousands separators; the digits arrive least
    significant first and [k] digits are still due before the next comma. *)
Fixpoint group3_rev (l : list ascii) (k : nat) : list ascii :=
  match l with
  | [] => []
  | c :: t =>
      match k with
      | O => ","%char :: c :: group3_rev t 2
      | S k' => c :: group3_rev t k'
      end
  end.

Definition thousands (s : string) : string :=
  string_of_list_ascii (rev (group3_rev (rev (list_ascii_of_string s)) 3)).

(** Nearest integer of a non-negative rational, ties to the even neighbour. *)
Definition round_half_even (x : Q) : Z :=
  let n := Qnum x in
  let d := Zpos (Qden x) in
  let q := (n / d)%Z in
  let r := (n mod d)%Z in
  match (2 * r ?= d)%Z with
  | Lt => q
  | Gt => (q + 1)%Z
  | Eq => if Z.even q then q else (q + 1)%Z
  end.

(** ** Doubles

    Binary64 with round-to-nearest, ties to even.  For a positive rational
    [a], [floor_log2 a] is the [e] with [2^e <= a < 2^(e+1)]. *)
Definition floor_log2 (a : Q) : Z :=
  let k := (Z.log2 (Qnum a) - Z.log2 (Zpos (Qden a)))%Z in
  if Qle_bool (2 ^ k) a then k else (k - 1)%Z.

(** The double nearest to [x]: 53 significant bits, the last place never
    below [2^-1074] (subnormals).  The result is in lowest terms. *)
Definition round64 (x : Q) : Q :=
  let x := Qred x in
  if Qeq_bool x 0 then 0
  else
    let a := Qabs x in
    let q := Z.max (floor_log2 a - 52) (-1074) in
    let m := round_half_even (a / 2 ^ q) in
    Qred ((if Qle_bool 0 x then 1 else -1) * inject_Z m * 2 ^ q).

(** The double that a number written in a file or in the code denotes. *)
Definition as_double (x : Q) : Q := round64 x.

(** [x / y], [x * y] and [x - y] on doubles. *)
Definition truediv (x y : Q) : Q := round64 (x / y).
Definition fmul (x y : Q) : Q := round64 (x * y).
Definition fsub (x y : Q) : Q := round64 (x - y).

(** The literals [0.70] and [0.85]. *)
Definition lit_0_70 : Q := as_double (70 # 100).
Definition lit_0_85 : Q := as_double (85 # 100).

(** [row.get(key, default)] on a numeric column: the double that the cell
    holds, or the default. *)
Definition get_number (cell : option Q) (default : Q) : Q :=
  get (option_map as_double cell) default.

(** The format specifications [.Nf], [+.Nf] and [,.Nf]: [plus] is the sign
    flag, [comma] the grouping flag, [prec] the number of decimals.  The
    digits are those of the double that is formatted. *)
Definition format_f (plus comma : bool) (prec : nat) (x : Q) : string :=
  let x := as_double x in
  let scale := (10 ^ Z.of_nat prec)%Z in
  let m := round_half_even (Qabs x * inject_Z scale) in
  let ip := digits (Z.to_N (m / scale)) in
  let fp := zfill prec (digits (Z.to_N (m mod scale))) in
  let sign := if py_lt x 0 then "-" else if plus then "+" else "" in
  sign ++ (if comma then thousands ip else ip)
       ++ match prec with
          | O => ""
          | S _ => "." ++ fp
          end.

Definition fmt_1f : Q -> string := format_f false false 1.        (* {x:.1f}  *)
Definition fmt_plus_1f : Q -> string := format_f true false 1.    (* {x:+.1f} *)
Definition fmt_comma_0f : Q -> string := format_f false true 0.   (* {x:,.0f} *)

(** ** Timestamps

    A timestamp is a number of nanoseconds since 1970-01-01T00:00; this is
    what [pd.to_datetime] stores and what [datetime.now()] is read as. *)

Definition Timestamp := Z.

Definition ns_per_day : Z := 86400 * 1000000000.

Definition day_number (t : Timestamp) : Z := (t / ns_per_day)%Z.

(** Proleptic Gregorian date of a day number (days since 1970-01-01). *)
Definition civil_of_days (z0 : Z) : Z * Z * Z :=
  let z := (z0 + 719468)%Z in
  let era := (z / 146097)%Z in
  let doe := (z - era * 146097)%Z in
  let yoe := ((doe - doe / 1460 + doe / 36524 - doe / 146096) / 365)%Z in
  let y := (yoe + era * 400)%Z in
  let doy := (doe - (365 * yoe + yoe / 4 - yoe / 100))%Z in
  let mp := ((5 * doy + 2) / 153)%Z in
  let d := (doy - (153 * mp + 2) / 5 + 1)%Z in
  let m := (if (mp <? 10)%Z then mp + 3 else mp - 9)%Z in
  ((if (m <=? 2)%Z then y + 1 else y)%Z, m, d).

(** [t.strftime('%Y-%m-%d')]; the year is printed without padding, as the
    C library does. *)
Definition strftime_Ymd (t : Timestamp) : string :=
  let '(y, m, d) := civil_of_days (day_number t) in
  digits (Z.to_N y) ++ "-" ++ zfill 2 (digits (Z.to_N m))
    ++ "-" ++ zfill 2 (digits (Z.to_N d)).

(** [t.strftime('%A')]: 1970-01-01 was a Thursday. *)
Definition strftime_A (t : Timestamp) : string :=
  match ((day_number t + 3) mod 7)%Z with
  | 0%Z => "Monday"
  | 1%Z => "Tuesday"
  | 2%Z => "Wednesday"
  | 3%Z => "Thursday"
  | 4%Z => "Friday"
  | 5%Z => "Saturday"
  | _ => "Sunday"
  end.

(** ** Data model *)

Inductive Level : Type := OK | WARNING | CRITICAL.

Definition Level_eqb (a b : Level) : bool :=
  match a, b with
  | OK, OK | WARNING, WARNING | CRITICAL, CRITICAL => true
  | _, _ => false
  end.

Definition Level_str (l : Level) : string :=
  match l with
  | OK => "OK"
  | WARNING => "WARNING"
  | CRITICAL => "CRITICAL"
  end.

Record Violation : Type := mkViolation {
  rule : string;
  severity : Level;
  message : string
}.

(** One row of the loaded table.  [load_data] indexes the [date] column
    directly, every other column is read through [row.get].  A numeric cell
    is the number as the file writes it; the table holds the double nearest
    to it, which is what [get_number] reads. *)
Module Row.
Record t : Type := mk {
  date : Timestamp;
  region : option string;
  city : option string;
  product : option string;
  product_line : option string;
  total_sales : option Q;
  sales : option Q;
  target_daily : option Q;
  delta_vs_target : option Q;
  delta_vs_yesterday : option Q;
  avg_7d_sales : option Q;
  day_name : option string;
  is_weekend : option bool
}.
End Row.

(** The dictionary returned by [evaluate_rules]. *)
Record Evaluation : Type := mkEvaluation {
  status : Level;
  violations : list Violation;
  adjustment_note : option string
}.

(** ** Row evaluator *)

(** R1: target achievement *)
Definition rule_R1 (row : Row.t) : list Violation :=
  let delta_target := get_number (Row.delta_vs_target row) 0 in
  if py_lt delta_target (-10) then
    [mkViolation "R1.3" CRITICAL
       ("Missed target by " ++ fmt_1f (Qabs delta_target) ++ "%")]
  else if py_lt delta_target 0 then
    [mkViolation "R1.2" WARNING
       ("Below target by " ++ fmt_1f (Qabs delta_target) ++ "%")]
  else [].

(** R2: day-over-day performance *)
Definition rule_R2 (row : Row.t) : list Violation :=
  let delta_yesterday := get_number (Row.delta_vs_yesterday row) 0 in
  if py_lt delta_yesterday (-15) then
    [mkViolation "R2.3" CRITICAL
       ("Dropped " ++ fmt_1f (Qabs delta_yesterday) ++ "% vs yesterday")]
  else if py_lt delta_yesterday (-5) then
    [mkViolation "R2.2" WARNING
       ("Down " ++ fmt_1f (Qabs delta_yesterday) ++ "% vs yesterday")]
  else [].

(** R3: trend anomaly against the 7-day average *)
Definition rule_R3 (row : Row.t) : list Violation :=
  let total_sales := get_number (Row.total_sales row) 0 in
  let avg_7d := get_number (Row.avg_7d_sales row) total_sales in
  if py_gt avg_7d 0 then
    let trend_ratio := truediv total_sales avg_7d in
    if py_lt trend_ratio lit_0_70 then
      [mkViolation "R3.3" CRITICAL
         ("Sales " ++ fmt_1f (fmul (fsub 1 trend_ratio) 100) ++ "% below 7-day average")]
    else if py_lt trend_ratio lit_0_85 then
      [mkViolation "R3.2" WARNING
         ("Sales " ++ fmt_1f (fmul (fsub 1 trend_ratio) 100) ++ "% below 7-day average")]
    else []
  else [].

(** The violations list as it stands when the three rules have run. *)
Definition rule_violations (row : Row.t) : list Violation :=
  (rule_R1 row ++ rule_R2 row ++ rule_R3 row)%list.

Definition has_severity (l : Level) (vs : list Violation) : bool :=
  existsb (fun v => Level_eqb (severity v) l) vs.

(** "Determine final status": the rollup over the violations. *)
Definition rollup_status (vs : list Violation) : Level :=
  if has_severity CRITICAL vs then CRITICAL
  else if has_severity WARNING vs then WARNING
  else OK.

Definition weekend_note : string := "Downgraded from CRITICAL due to weekend".

Definition evaluate_rules (row : Row.t) : Evaluation :=
  let violations := rule_violations row in
  let final_status := rollup_status violations in
  (* R4: weekend adjustment *)
  let is_weekend := get (Row.is_weekend row) false in
  if is_weekend && Level_eqb final_status CRITICAL then
    mkEvaluation WARNING violations (Some weekend_note)
  else
    mkEvaluation final_status violations None.

(** ** Daily processor *)

(** One record of the result table built by [process_daily_data]; the same
    record is what [to_dict('records')] hands to the summary lists. *)
Module Evaluated.
Record t : Type := mk {
  date : Timestamp;
  region : string;
  product : string;
  total_sales : Q;
  target_daily : Q;
  delta_vs_target : Q;
  delta_vs_yesterday : Q;
  day_name : string;
  is_weekend : bool;
  status : Level;
  violations : list Violation;
  adjustment_note : option string
}.
End Evaluated.

Definition DataFrame := list Row.t.
Definition ResultFrame := list Evaluated.t.

Inductive exn : Type :=
| FileNotFoundError
| EmptyDataError
| KeyError (key : string)
| ZeroDivisionError
| OtherError (what : string).

(** Computations that may raise. *)
Inductive res (A : Type) : Type :=
| Ret (a : A)
| Raise (e : exn).
Arguments Ret {A} a.
Arguments Raise {A} e.

Definition bind {A B : Type} (m : res A) (k : A -> res B) : res B :=
  match m with
  | Ret a => k a
  | Raise e => Raise e
  end.

Notation "x <- m ;; k" := (bind m (fun x => k))
  (at level 61, m at next level, right associativity).

(** A table as [pd.read_csv] returns it, by what
    [self.df['date'] = pd.to_datetime(self.df['date'])] does to it: the date
    column is converted, giving the rows; there is no date column
    ([KeyError]); or the column is there and [to_datetime] rejects it. *)
Inductive Frame : Type :=
| Dated (rows : DataFrame)
| Undated (length : nat)
| Unparsed (length : nat) (e : exn).

(** [len(df)] *)
Definition frame_length (f : Frame) : nat :=
  match f with
  | Dated rows => List.length rows
  | Undated n => n
  | Unparsed n _ => n
  end.

(** What the engine reads from outside: the outcome of [pd.read_csv] on its
    data path, and the successive readings of [datetime.now()] during a
    run. *)
Record World : Type := mkWorld {
  read_csv : res Frame;
  now : nat -> Timestamp
}.

(** The attributes of a [SalesAgentEngine] instance. *)
Record Engine : Type := mkEngine {
  df : option Frame;
  latest_date : option Timestamp
}.

(** [__init__] *)
Definition init : Engine := mkEngine None None.

(** [df['date'].max()]; [None] stands for [NaT] on an empty column. *)
Fixpoint max_date (rows : DataFrame) : option Timestamp :=
  match rows with
  | [] => None
  | r :: rest =>
      match max_date rest with
      | None => Some (Row.date r)
      | Some d => Some (Z.max (Row.date r) d)
      end
  end.

(** The methods of the engine return the engine as they leave it, with
    their result or the exception they raise.

    [load_data]: the [try] block first, then its handler.  When [read_csv]
    raises, the engine keeps its attributes.  Once [read_csv] has returned,
    [self.df] is assigned before the date column is touched, so a failure on
    that column leaves the unconverted table in [self.df].  The handler
    catches [FileNotFoundError] only and answers [None]. *)
Definition load_data (w : World) (self : Engine) : Engine * res (option Frame) :=
  let (self, tried) :=
    match read_csv w with
    | Raise e => (self, Raise e)
    | Ret (Dated rows) =>
        (mkEngine (Some (Dated rows)) (max_date rows), Ret (Some (Dated rows)))
    | Ret (Undated n) =>
        (mkEngine (Some (Undated n)) (latest_date self), Raise (KeyError "date"))
    | Ret (Unparsed n e) =>
        (mkEngine (Some (Unparsed n e)) (latest_date self), Raise e)
    end in
  match tried with
  | Raise FileNotFoundError => (self, Ret None)
  | _ => (self, tried)
  end.

(** [self.df[self.df['date'] == self.latest_date]]: on a table without a
    date column the indexing raises; the comparison of an unconverted
    column, or with no latest date, is false on every row. *)
Definition rows_of_latest_date (self : Engine) (f : Frame) : res DataFrame :=
  match f with
  | Dated rows =>
      Ret (filter (fun r => match latest_date self with
                            | Some d => (Row.date r =? d)%Z
                            | None => false
                            end) rows)
  | Undated _ => Raise (KeyError "date")
  | Unparsed _ _ => Ret []
  end.

Definition get_latest_data (w : World) (self : Engine) : Engine * res DataFrame :=
  let (self, loaded) :=
    match df self with
    | None => load_data w self
    | Some f => (self, Ret (Some f))
    end in
  (self,
   _ <- loaded ;;
   match df self with
   | Some f =>
       if (0 <? frame_length f)%nat then rows_of_latest_date self f else Ret []
   | None => Ret []
   end).

(** The body of the loop of [process_daily_data]. *)
Definition result_of_row (row : Row.t) : Evaluated.t :=
  let evaluation := evaluate_rules row in
  Evaluated.mk
    (Row.date row)
    (get (Row.region row) (get (Row.city row) "Unknown"))
    (get (Row.product row) (get (Row.product_line row) "Unknown"))
    (get_number (Row.total_sales row) (get_number (Row.sales row) 0))
    (get_number (Row.target_daily row) 0)
    (get_number (Row.delta_vs_target row) 0)
    (get_number (Row.delta_vs_yesterday row) 0)
    (get (Row.day_name row) "")
    (get (Row.is_weekend row) false)
    (status evaluation)
    (violations evaluation)
    (adjustment_note evaluation).

Definition process_daily_data (w : World) (self : Engine) : Engine * res ResultFrame :=
  let (self, latest) := get_latest_data w self in
  (self,
   df_latest <- latest ;;
   match df_latest with
   | [] => Ret []
   | _ => Ret (map result_of_row df_latest)
   end).

(** ** Portfolio summary *)

Module Summary.
Record t : Type := mk {
  date : string;
  day_name : string;
  is_weekend : bool;
  total_rows : nat;
  critical_count : nat;
  warning_count : nat;
  ok_count : nat;
  total_sales : Q;
  total_target : Q;
  portfolio_achievement : Q;
  delta_vs_yesterday : Q;
  overall_status : Level;
  critical_issues : list Evaluated.t;
  warning_issues : list Evaluated.t;
  top_performers : list Evaluated.t;
  flagged_items : list Evaluated.t;
  ai_insight : option string
}.
End Summary.

(** [summary['ai_insight'] = text] *)
Definition set_ai_insight (s : Summary.t) (text : string) : Summary.t :=
  Summary.mk (Summary.date s) (Summary.day_name s) (Summary.is_weekend s)
    (Summary.total_rows s) (Summary.critical_count s) (Summary.warning_count s)
    (Summary.ok_count s) (Summary.total_sales s) (Summary.total_target s)
    (Summary.portfolio_achievement s) (Summary.delta_vs_yesterday s)
    (Summary.overall_status s) (Summary.critical_issues s)
    (Summary.warning_issues s) (Summary.top_performers s)
    (Summary.flagged_items s) (Some text).

Definition _empty_summary (w : World) : Summary.t :=
  Summary.mk (strftime_Ymd (now w 0%nat)) (strftime_A (now w 1%nat)) false
    0 0 0 0 0 0 0 0 OK [] [] [] [] None.

Definition has_status (l : Level) (r : Evaluated.t) : bool :=
  Level_eqb (Evaluated.status r) l.

(** [status.isin(['CRITICAL', 'WARNING'])] *)
Definition is_flagged (r : Evaluated.t) : bool :=
  has_status CRITICAL r || has_status WARNING r.

(** Division of Python floats: a zero divisor raises. *)
Definition py_truediv (x y : Q) : res Q :=
  if Qeq_bool y 0 then Raise ZeroDivisionError else Ret (truediv x y).

(** [head(n)] and the slice [[:n]] *)
Definition head {A : Type} (n : nat) (l : list A) : list A := firstn n l.

(** The order that [sort_values(key, ascending=...)] establishes. *)
Definition key_order (key : Evaluated.t -> Q) (ascending : bool)
  (a b : Evaluated.t) : Prop :=
  if ascending then key a <= key b else key b <= key a.

Definition Sorter : Type :=
  (Evaluated.t -> Q) -> bool -> ResultFrame -> ResultFrame.

(** A reduction of a numeric column to one number. *)
Definition Reducer : Type := list Q -> Q.

(** The operations of pandas that the aggregator calls.  They are not part
    of the repository: [sort_values] leaves the order of equal keys open,
    and what [sum] and [mean] return depends on the column type (an int64
    sum wraps, a float64 sum rounds) and on the order in which the installed
    pandas adds.  The aggregator is written over any implementation. *)
Record Pandas : Type := mkPandas {
  sort_values : Sorter;
  series_sum : Reducer;
  series_mean : Reducer
}.

(** "Calculate portfolio achievement" *)
Definition calculate_achievement (total_sales total_target : Q) : res Q :=
  if py_gt total_target 0 then
    q <- py_truediv total_sales total_target ;; Ret (fmul q 100)
  else Ret 0.

Definition aggregate_findings (pd : Pandas) (w : World) (df_results : ResultFrame)
  : res Summary.t :=
  match df_results with
  | [] => Ret (_empty_summary w)
  | first :: _ =>
      let date := strftime_Ymd (Evaluated.date first) in
      let day_name := Evaluated.day_name first in
      let is_weekend := Evaluated.is_weekend first in
      let total_rows := List.length df_results in
      let critical_count := List.length (filter (has_status CRITICAL) df_results) in
      let warning_count := List.length (filter (has_status WARNING) df_results) in
      let ok_count := List.length (filter (has_status OK) df_results) in
      (* float(df_results[...].sum()) *)
      let total_sales :=
        as_double (series_sum pd (map Evaluated.total_sales df_results)) in
      let total_target :=
        as_double (series_sum pd (map Evaluated.target_daily df_results)) in
      portfolio_achievement <- calculate_achievement total_sales total_target ;;
      (* the result table always carries the delta_vs_yesterday column *)
      let delta_vs_yesterday :=
        as_double (series_mean pd (map Evaluated.delta_vs_yesterday df_results)) in
      let overall_status :=
        if (0 <? critical_count)%nat then CRITICAL
        else if (0 <? warning_count)%nat then WARNING
        else OK in
      let critical_issues :=
        head 5 (sort_values pd Evaluated.delta_vs_target true
                  (filter (has_status CRITICAL) df_results)) in
      let warning_issues :=
        head 5 (sort_values pd Evaluated.delta_vs_target true
                  (filter (has_status WARNING) df_results)) in
      let top_performers :=
        head 3 (sort_values pd Evaluated.delta_vs_target false
                  (filter (has_status OK) df_results)) in
      let flagged := filter is_flagged df_results in
      Ret (Summary.mk date day_name is_weekend total_rows critical_count
             warning_count ok_count total_sales total_target
             portfolio_achievement delta_vs_yesterday overall_status
             critical_issues warning_issues top_performers flagged None)
  end.

(** ** Insight composer *)

Definition nl : string := String (ascii_of_nat 10) "".

(** [day_translation.get(day_name, day_name)] *)
Definition day_translation : list (string * string) :=
  [("Monday", "Senin"); ("Tuesday", "Selasa"); ("Wednesday", "Rabu");
   ("Thursday", "Kamis"); ("Friday", "Jumat"); ("Saturday", "Sabtu");
   ("Sunday", "Minggu")].

Fixpoint dict_get (d : list (string * string)) (key default : string) : string :=
  match d with
  | [] => default
  | (k, v) :: rest => if String.eqb k key then v else dict_get rest key default
  end.

Definition trend_word (delta_yesterday : Q) : string :=
  if py_lt delta_yesterday 0 then "menurun" else "meningkat".

(** The executive summary: one template per overall status. *)
Definition executive_summary (s : Summary.t) : string :=
  let achievement := Summary.portfolio_achievement s in
  let delta_yesterday := Summary.delta_vs_yesterday s in
  let sales_line :=
    "- Penjualan " ++ trend_word delta_yesterday ++ " "
      ++ fmt_1f (Qabs delta_yesterday) ++ "% vs kemarin" ++ nl in
  match Summary.overall_status s with
  | CRITICAL =>
      "- Portofolio berkinerja jauh di bawah target: **" ++ fmt_1f achievement
        ++ "% dari target tercapai**" ++ nl
        ++ "- " ++ digits (N.of_nat (Summary.critical_count s))
        ++ " masalah kritis memerlukan perhatian segera" ++ nl
        ++ sales_line
        ++ "- Intervensi mendesak diperlukan untuk mencegah penurunan lebih lanjut" ++ nl
        ++ "- Manajer regional harus menyelidiki akar masalah hari ini" ++ nl
  | WARNING =>
      "- Portofolio mencapai **" ++ fmt_1f achievement
        ++ "% dari target** — di bawah ekspektasi" ++ nl
        ++ "- " ++ digits (N.of_nat (Summary.warning_count s))
        ++ " sinyal peringatan terdeteksi, "
        ++ digits (N.of_nat (Summary.critical_count s)) ++ " masalah kritis" ++ nl
        ++ sales_line
        ++ "- Pemantauan ketat diperlukan; siapkan rencana kontingensi" ++ nl
        ++ "- Beberapa titik terang teridentifikasi pada performa terbaik" ++ nl
  | OK =>
      "- Portofolio berkinerja baik: **" ++ fmt_1f achievement
        ++ "% dari target tercapai**" ++ nl
        ++ "- Semua wilayah dan produk dalam rentang yang dapat diterima" ++ nl
        ++ sales_line
        ++ "- Tidak ada kekhawatiran mendesak; pertahankan momentum saat ini" ++ nl
        ++ "- Lanjutkan pemantauan untuk tren yang muncul" ++ nl
  end.

Definition key_metrics (s : Summary.t) : string :=
  nl ++ "📊 **Metrik Utama**" ++ nl
    ++ "- **Total Penjualan**: Rp " ++ fmt_comma_0f (Summary.total_sales s) ++ nl
    ++ "- **Target**: Rp " ++ fmt_comma_0f (Summary.total_target s) ++ nl
    ++ "- **Selisih vs Target**: "
    ++ fmt_plus_1f (fsub (Summary.portfolio_achievement s) 100) ++ "%" ++ nl
    ++ "- **Perubahan vs Kemarin**: "
    ++ fmt_plus_1f (Summary.delta_vs_yesterday s) ++ "%" ++ nl.

(** The line appended for one entry of [critical_issues]. *)
Definition critical_line (issue : Evaluated.t) : string :=
  let region := Evaluated.region issue in
  let product := Evaluated.product issue in
  let sales := Evaluated.total_sales issue in
  let delta_target := Evaluated.delta_vs_target issue in
  let delta_yesterday := Evaluated.delta_vs_yesterday issue in
  "- 🚨 **KRITIS**: " ++ region ++ " - " ++ product ++ ": Rp "
    ++ fmt_comma_0f sales ++ " (" ++ fmt_plus_1f delta_target ++ "% vs target, "
    ++ fmt_plus_1f delta_yesterday ++ "% vs kemarin)" ++ nl.

(** The line appended for one entry of [warning_issues]. *)
Definition warning_line (issue : Evaluated.t) : string :=
  let region := Evaluated.region issue in
  let product := Evaluated.product issue in
  let delta_target := Evaluated.delta_vs_target issue in
  "- ⚠️ **PERINGATAN**: " ++ region ++ " - " ++ product ++ " ("
    ++ fmt_plus_1f delta_target ++ "% vs target)" ++ nl.

(** The lines of the two loops, in the order they are appended. *)
Definition critical_entries (s : Summary.t) : list string :=
  map critical_line (head 3 (Summary.critical_issues s)).

Definition warning_entries (s : Summary.t) : list string :=
  map warning_line (head 2 (Summary.warning_issues s)).

Definition is_empty {A : Type} (l : list A) : bool :=
  match l with
  | [] => true
  | _ => false
  end.

Definition alerts_section (s : Summary.t) : string :=
  nl ++ "⚠️ **Peringatan & Risiko**" ++ nl
    ++ String.concat "" (critical_entries s)
    ++ String.concat "" (warning_entries s)
    ++ (if is_empty (Summary.critical_issues s)
           && is_empty (Summary.warning_issues s)
        then "- ✅ Tidak ada masalah kritis atau peringatan terdeteksi" ++ nl
        else "").

Definition ai_analysis (status : Level) : string :=
  nl ++ "🧠 **Analisis AI (Mengapa ini terjadi)**" ++ nl
    ++ match status with
       | CRITICAL =>
           "- Penurunan tajam menunjukkan masalah operasional (inventori, staf, sistem) atau faktor eksternal (aktivitas kompetitor, cuaca)" ++ nl
             ++ "- Beberapa masalah kritis mengindikasikan masalah sistemik yang memerlukan perhatian pimpinan" ++ nl
             ++ "- Analisis pola menunjukkan ini bukan fluktuasi normal" ++ nl
       | WARNING =>
           "- Penurunan kinerja mungkin sementara, tetapi tren memerlukan pemantauan" ++ nl
             ++ "- Beberapa wilayah/produk berkinerja buruk sementara yang lain mengkompensasi" ++ nl
             ++ "- Pola akhir pekan/hari kerja mungkin mempengaruhi hasil" ++ nl
       | OK =>
           "- Eksekusi kuat di semua wilayah dan lini produk" ++ nl
             ++ "- Momentum penjualan positif dan berkelanjutan" ++ nl
             ++ "- Strategi saat ini efektif" ++ nl
       end.

Definition recommendations (status : Level) : string :=
  nl ++ "🎯 **Tindakan yang Direkomendasikan (Hari Ini)**" ++ nl
    ++ match status with
       | CRITICAL =>
           "1. **MENDESAK**: Manajer regional hubungi lokasi yang berkinerja buruk segera" ++ nl
             ++ "2. **MENDESAK**: Verifikasi inventori, staf, dan fungsi sistem" ++ nl
             ++ "3. Eskalasi ke VP Penjualan jika masalah tidak terselesaikan pada akhir hari" ++ nl
             ++ "4. Siapkan rencana tindakan korektif untuk besok" ++ nl
             ++ "5. Periksa ulang penjualan jam 3 sore untuk menilai efektivitas intervensi" ++ nl
       | WARNING =>
           "1. Tinjau kombinasi wilayah-produk yang ditandai untuk masalah yang diketahui" ++ nl
             ++ "2. Periksa promosi kompetitor atau perubahan pasar" ++ nl
             ++ "3. Siapkan kontingensi jika tren berlanjut besok" ++ nl
             ++ "4. Pantau dengan ketat sepanjang hari" ++ nl
             ++ "5. Dokumentasikan temuan untuk analisis pola" ++ nl
       | OK =>
           "1. Lanjutkan strategi dan eksekusi penjualan saat ini" ++ nl
             ++ "2. Bagikan praktik terbaik dari performa terbaik" ++ nl
             ++ "3. Pertahankan tingkat inventori dan staf" ++ nl
             ++ "4. Pantau untuk masalah yang muncul" ++ nl
             ++ "5. Persiapkan untuk periode promosi mendatang" ++ nl
       end.

Definition status_line (status : Level) : string :=
  nl ++ "**Status**: "
    ++ match status with
       | CRITICAL => "🚨"
       | WARNING => "⚠️"
       | OK => "✅"
       end
    ++ " " ++ Level_str status ++ nl.

Definition generate_ai_insight (summary : Summary.t) : string :=
  let status := Summary.overall_status summary in
  let date_str := Summary.date summary in
  let day_name := Summary.day_name summary in
  let day_name_id := dict_get day_translation day_name day_name in
  "🧾 LAPORAN PENJUALAN HARIAN — " ++ day_name_id ++ ", " ++ date_str ++ nl
    ++ nl ++ "📌 **Ringkasan Eksekutif**" ++ nl
    ++ executive_summary summary
    ++ key_metrics summary
    ++ alerts_section summary
    ++ ai_analysis status
    ++ recommendations status
    ++ status_line status.

(** ** The complete analysis *)

Definition run_analysis (pd : Pandas) (w : World) (self : Engine)
  : Engine * res Summary.t :=
  let (self, processed) := process_daily_data w self in
  (self,
   df_results <- processed ;;
   summary <- aggregate_findings pd w df_results ;;
   Ret (set_ai_insight summary (generate_ai_insight summary))).

(** ** Reference notions used to state the properties *)

(** The severity order OK < WARNING < CRITICAL and the maximum it induces. *)
Definition Level_rank (l : Level) : nat :=
  match l with
  | OK => 0
  | WARNING => 1
  | CRITICAL => 2
  end.

Definition Level_max (a b : Level) : Level :=
  if (Level_rank a <? Level_rank b)%nat then b else a.

Definition max_severity (vs : list Violation) : Level :=
  fold_right (fun v acc => Level_max (severity v) acc) OK vs.

(** Rule families, by rule code. *)
Definition family_R1 : list string := ["R1.2"; "R1.3"].
Definition family_R2 : list string := ["R2.2"; "R2.3"].
Definition family_R3 : list string := ["R3.2"; "R3.3"].

Definition in_family (codes : list string) (v : Violation) : bool :=
  existsb (String.eqb (rule v)) codes.

Definition of_family (codes : list string) (vs : list Violation) : list Violation :=
  filter (in_family codes) vs.

(** [needle in hay] on strings. *)
Fixpoint contains (needle hay : string) : bool :=
  if String.prefix needle hay then true
  else match hay with
       | EmptyString => false
       | String _ rest => contains needle rest
       end.

(** A record with its evaluation details erased. *)
Definition erase_violations (r : Evaluated.t) : Evaluated.t :=
  Evaluated.mk (Evaluated.date r) (Evaluated.region r) (Evaluated.product r)
    (Evaluated.total_sales r) (Evaluated.target_daily r)
    (Evaluated.delta_vs_target r) (Evaluated.delta_vs_yesterday r)
    (Evaluated.day_name r) (Evaluated.is_weekend r) (Evaluated.status r)
    [] None.

Definition erase_summary_violations (s : Summary.t) : Summary.t :=
  Summary.mk (Summary.date s) (Summary.day_name s) (Summary.is_weekend s)
    (Summary.total_rows s) (Summary.critical_count s) (Summary.warning_count s)
    (Summary.ok_count s) (Summary.total_sales s) (Summary.total_target s)
    (Summary.portfolio_achievement s) (Summary.delta_vs_yesterday s)
    (Summary.overall_status s)
    (map erase_violations (Summary.critical_issues s))
    (map erase_violations (Summary.warning_issues s))
    (map erase_violations (Summary.top_performers s))
    (map erase_violations (Summary.flagged_items s))
    (Summary.ai_insight s).

(** The reading of the report in which every listed entry shows the message
    of the item's first violation. *)
Definition entries_show_first_violation (s : Summary.t) : Prop :=
  forall issue v,
    In issue (head 3 (Summary.critical_issues s)
                ++ head 2 (Summary.warning_issues s))%list ->
    hd_error (Evaluated.violations issue) = Some v ->
    contains (message v) (generate_ai_insight s) = true.

(** Two successive runs of the analysis on one engine, the data source
    answering the same both times, give the same summary. *)
Definition runs_agree (pd : Pandas) (source : res Frame)
  (clock1 clock2 : nat -> Timestamp) (self : Engine) : Prop :=
  forall self1 s1,
    run_analysis pd (mkWorld source clock1) self = (self1, Ret s1) ->
    exists self2,
      run_analysis pd (mkWorld source clock2) self1 = (self2, Ret s1).



(** ** A reference implementation of the pandas operations: insertion
    sort, and the sum and mean of a float64 column added from left to
    right *)

Definition key_leb (key : Evaluated.t -> Q) (ascending : bool)
  (a b : Evaluated.t) : bool :=
  if ascending then Qle_bool (key a) (key b) else Qle_bool (key b) (key a).

Fixpoint insert_by (key : Evaluated.t -> Q) (ascending : bool)
  (x : Evaluated.t) (l : ResultFrame) : ResultFrame :=
  match l with
  | [] => [x]
  | y :: rest =>
      if key_leb key ascending x y then x :: l
      else y :: insert_by key ascending x rest
  end.

Definition insertion_sort : Sorter :=
  fun key ascending l => fold_right (insert_by key ascending) [] l.

Definition fadd (x y : Q) : Q := round64 (x + y).

Definition float_sum : Reducer :=
  fun xs => fold_left (fun acc x => fadd acc (as_double x)) xs 0.

Definition float_mean : Reducer :=
  fun xs => truediv (float_sum xs) (inject_Z (Z.of_nat (List.length xs))).

Definition reference_pandas : Pandas :=
  mkPandas insertion_sort float_sum float_mean.

(** ** Sample data *)

Definition day (n : Z) : Timestamp := (n * ns_per_day)%Z.

(** 2026-11-03, a Tuesday, and the day after. *)
Definition tuesday : Timestamp := day 20760.
Definition wednesday : Timestamp := day 20761.

Definition sample_row (region : string) (total target d_target d_yesterday avg : Q)
  (weekend : bool) : Row.t :=
  Row.mk tuesday (Some region) None (Some "Laptop") None (Some total) None
    (Some target) (Some d_target) (Some d_yesterday) (Some avg)
    (Some "Tuesday") (Some weekend).

Definition row_critical : Row.t := sample_row "Jakarta" 8000 10000 (-20) (-2) 10000 false.
Definition row_weekend : Row.t := sample_row "Jakarta" 8000 10000 (-20) (-2) 10000 true.
Definition row_boundary : Row.t := sample_row "Bandung" 8500 9444 (-10) (-15) 10000 false.
Definition row_ratio_70 : Row.t := sample_row "Surabaya" 7000 7000 0 0 10000 false.
Definition row_ok : Row.t := sample_row "Medan" 12000 10000 20 3 11000 false.

Definition row_no_target : Row.t := sample_row "Medan" 100 0 0 0 100 false.

(** Two rows whose decimals are not doubles: 4.59 / 5.4 and 5.81 / 8.3
    fall just below 0.85 and 0.70 once divided as doubles. *)
Definition row_below_85 : Row.t :=
  sample_row "Solo" (459 # 100) (459 # 100) 0 0 (54 # 10) false.
Definition row_below_70 : Row.t :=
  sample_row "Solo" (581 # 100) (581 # 100) 0 0 (83 # 10) false.

Definition sample_frame : DataFrame :=
  [row_ok; row_boundary; row_critical; row_ratio_70].

Definition sample_world : World :=
  mkWorld (Ret (Dated sample_frame)) (fun _ => wednesday).

Definition sample_results : ResultFrame := map result_of_row sample_frame.

Definition summary_of (r : Engine * res Summary.t) : option Summary.t :=
  match snd r with
  | Ret s => Some s
  | Raise _ => None
  end.

(** The summary of the sample table, the empty one should aggregation raise. *)
Definition sample_summary : Summary.t :=
  match aggregate_findings reference_pandas sample_world sample_results with
  | Ret s => s
  | Raise _ => _empty_summary sample_world
  end.

(** ** Web views (app.py)

    Each view runs the analysis on the shared engine and builds the data it
    hands to its template; an exception of the analysis becomes the error
    page with code 500.  The engine stays as the analysis left it. *)

(** [c.lower()] on a byte; bytes outside A-Z are left alone. *)
Definition lower_ascii (c : ascii) : ascii :=
  let n := nat_of_ascii c in
  if ((65 <=? n) && (n <=? 90))%nat then ascii_of_nat (n + 32) else c.

Fixpoint lower (s : string) : string :=
  match s with
  | EmptyString => EmptyString
  | String c rest => String (lower_ascii c) (lower rest)
  end.

(** [s.rsplit('.', 1)] when it has two parts: the text before the last dot
    and the text after it; [None] when [s] has no dot. *)
Fixpoint rsplit_dot (s : string) : option (string * string) :=
  match s with
  | EmptyString => None
  | String c rest =>
      match rsplit_dot rest with
      | Some (stem, ext) => Some (String c stem, ext)
      | None => if Ascii.eqb c "."%char then Some (EmptyString, rest) else None
      end
  end.

Definition ALLOWED_EXTENSIONS : list string := ["csv"].

Definition allowed_file (filename : string) : bool :=
  contains "." filename
  && match rsplit_dot filename with
     | Some (_, ext) => existsb (String.eqb (lower ext)) ALLOWED_EXTENSIONS
     | None => false
     end.

(** [str(e)]; a missing file is caught by [load_data] and never reaches a
    view, its text is given without the path. *)
Definition str_exn (e : exn) : string :=
  match e with
  | FileNotFoundError => "[Errno 2] No such file or directory"
  | EmptyDataError => "No columns to parse from file"
  | KeyError key => "'" ++ key ++ "'"
  | ZeroDivisionError => "float division by zero"
  | OtherError what => what
  end.

(** What a view returns: a rendered template with its data, or the error
    page with its status code. *)
Inductive Response (A : Type) : Type :=
| Rendered (template : string) (data : A)
| ErrorPage (error : string) (code : nat).
Arguments Rendered {A} template data.
Arguments ErrorPage {A} error code.

Definition py_ge (x y : Q) : bool := Qle_bool y x.

Definition status_classes : list (string * string) :=
  [("OK", "success"); ("WARNING", "warning"); ("CRITICAL", "danger")].

(** The keys that [overview] adds to the summary. *)
Module Overview.
Record t : Type := mk {
  summary : Summary.t;
  total_sales_formatted : string;
  total_target_formatted : string;
  gap_formatted : string;
  gap_direction : string;
  status_class : string;
  top_performer_text : string
}.
End Overview.

Definition overview_data (summary : Summary.t) : Overview.t :=
  let gap := fsub (Summary.total_sales summary) (Summary.total_target summary) in
  Overview.mk summary
    ("Rp " ++ fmt_comma_0f (Summary.total_sales summary))
    ("Rp " ++ fmt_comma_0f (Summary.total_target summary))
    ("Rp " ++ fmt_comma_0f (Qabs gap))
    (if py_ge gap 0 then "above" else "below")
    (dict_get status_classes (Level_str (Summary.overall_status summary)) "secondary")
    (match Summary.top_performers summary with
     | top :: _ => Evaluated.region top ++ " - " ++ Evaluated.product top
     | [] => "N/A"
     end).

Definition overview (pd : Pandas) (w : World) (agent : Engine)
  : Engine * Response Overview.t :=
  let (agent, result) := run_analysis pd w agent in
  match result with
  | Ret summary => (agent, Rendered "overview.html" (overview_data summary))
  | Raise e => (agent, ErrorPage (str_exn e) 500)
  end.

(** One entry of [all_alerts]: the issue record with the keys that the
    [alerts] view sets on it. *)
Module Alert.
Record t : Type := mk {
  item : Evaluated.t;
  severity : Level;
  severity_class : string;
  icon : string;
  total_sales_formatted : string;
  target_daily_formatted : string;
  issue_description : string
}.
End Alert.

(** The three keys of the first loops and the three of the formatting loop. *)
Definition make_alert (severity : Level) (severity_class icon : string)
  (item : Evaluated.t) : Alert.t :=
  Alert.mk item severity severity_class icon
    ("Rp " ++ fmt_comma_0f (Evaluated.total_sales item))
    ("Rp " ++ fmt_comma_0f (Evaluated.target_daily item))
    (match Evaluated.violations item with
     | v :: _ => message v
     | [] => "Performance below expectations"
     end).

Module Alerts.
Record t : Type := mk {
  alerts : list Alert.t;
  critical_count : nat;
  warning_count : nat;
  total_count : nat;
  date : string;
  overall_status : Level
}.
End Alerts.

Definition alerts_data (summary : Summary.t) : Alerts.t :=
  let all_alerts :=
    (map (make_alert CRITICAL "danger" "🚨") (Summary.critical_issues summary)
       ++ map (make_alert WARNING "warning" "⚠️") (Summary.warning_issues summary))%list in
  Alerts.mk all_alerts (Summary.critical_count summary)
    (Summary.warning_count summary) (List.length all_alerts)
    (Summary.date summary) (Summary.overall_status summary).

Definition alerts (pd : Pandas) (w : World) (agent : Engine)
  : Engine * Response Alerts.t :=
  let (agent, result) := run_analysis pd w agent in
  match result with
  | Ret summary => (agent, Rendered "alerts.html" (alerts_data summary))
  | Raise e => (agent, ErrorPage (str_exn e) 500)
  end.

(** The data-info block of the import form (GET): the number of regions is
    counted over the flagged items; a failing analysis gives the
    placeholder. *)
Module Current.
Record t : Type := mk {
  date : string;
  total_rows : nat;
  regions : nat
}.
End Current.

(** [len(set(names))] *)
Definition count_distinct (names : list string) : nat :=
  List.length (nodup string_dec names).

Definition current_data (summary : Summary.t) : Current.t :=
  Current.mk (Summary.date summary) (Summary.total_rows summary)
    (if is_empty (Summary.flagged_items summary) then 0%nat
     else count_distinct (map Evaluated.region (Summary.flagged_items summary))).

Definition import_form (pd : Pandas) (w : World) (agent : Engine)
  : Engine * Current.t :=
  let (agent, result) := run_analysis pd w agent in
  match result with
  | Ret summary => (agent, current_data summary)
  | Raise _ => (agent, Current.mk "N/A" 0 0)
  end.

(** The greatest status of a table, OK for the empty one. *)
Definition max_status (df_results : ResultFrame) : Level :=
  fold_right (fun r acc => Level_max (Evaluated.status r) acc) OK df_results.

(** A Saturday table of one row, and a table read on two different days. *)
Definition saturday : Timestamp := day 20764.
Definition weekend_frame : DataFrame :=
  [Row.mk saturday (Some "Jakarta") None (Some "Laptop") None (Some 8000) None
     (Some 10000) (Some (-20)) (Some (-2)) (Some 10000) (Some "Saturday")
     (Some true)].
Definition two_day_frame : DataFrame :=
  (weekend_frame ++ sample_frame)%list.

(** A row with the sales under the [sales] column only. *)
Definition row_sales_alias : Row.t :=
  Row.mk tuesday None (Some "Depok") None (Some "Phone") None (Some 10000)
    (Some 10000) (Some 0) (Some 0) (Some 10000) (Some "Tuesday") (Some false).

(** The values that [evaluate_rules] reads from a row. *)
Definition delta_target (row : Row.t) : Q := get_number (Row.delta_vs_target row) 0.
Definition delta_yesterday (row : Row.t) : Q :=
  get_number (Row.delta_vs_yesterday row) 0.
Definition total_sales_read (row : Row.t) : Q := get_number (Row.total_sales row) 0.
Definition avg_7d (row : Row.t) : Q :=
  get_number (Row.avg_7d_sales row) (total_sales_read row).
(** The ratio that rule R3 computes. *)
Definition trend_ratio (row : Row.t) : Q := truediv (total_sales_read row) (avg_7d row).
Definition weekend (row : Row.t) : bool := get (Row.is_weekend row) false.

(** "Determine overall status", as a function of the two counts. *)
Definition status_of_counts (critical_count warning_count : nat) : Level :=
  if (0 <? critical_count)%nat then CRITICAL
  else if (0 <? warning_count)%nat then WARNING
  else OK.

(** * Properties *)

(** ** Comparisons *)

Lemma py_lt_true (x y : Q) : py_lt x y = true <-> x < y.
Proof.
  unfold py_lt. rewrite negb_true_iff, <- not_true_iff_false, Qle_bool_iff.
  split; [apply Qnot_le_lt | apply Qlt_not_le].
Qed.

Lemma py_lt_false (x y : Q) : py_lt x y = false <-> y <= x.
Proof.
  unfold py_lt. rewrite negb_false_iff. apply Qle_bool_iff.
Qed.

Lemma Ret_inj {A : Type} (x y : A) : Ret x = Ret y -> x = y.
Proof. intros H. now injection H. Qed.

(** ** Doubles *)

Lemma round64_eq (x y : Q) : x == y -> round64 x = round64 y.
Proof.
  intros H. unfold round64. now rewrite (Qred_complete x y H).
Qed.

Lemma literals_in_order : 0 < lit_0_70 /\ lit_0_70 < lit_0_85 /\ lit_0_85 <= 1.
Proof.
  repeat split; vm_compute; congruence.
Qed.

Lemma get_number_eq (cell : option Q) (v : Q) :
  ~ v == 0 -> get cell 0 == v -> get_number cell 0 = as_double v.
Proof.
  intros Hv H. destruct cell as [x|]; cbn in *.
  - now apply round64_eq.
  - elim Hv. now symmetry.
Qed.

(** Decimals that are not doubles are divided as the doubles they are read
    as: 4.59 / 5.4 falls below 0.85 and 5.81 / 8.3 below 0.70, though the
    decimals themselves are in the ratios 0.85 and 0.70. *)
Lemma decimals_divide_as_doubles :
  (459 # 100) / (54 # 10) == 85 # 100 /\
  (581 # 100) / (83 # 10) == 70 # 100 /\
  map rule (rule_R3 row_below_85) = ["R3.2"] /\
  map rule (rule_R3 row_below_70) = ["R3.3"].
Proof.
  repeat split; vm_compute; reflexivity.
Qed.

Lemma Level_eqb_eq (a b : Level) : Level_eqb a b = true <-> a = b.
Proof. destruct a, b; simpl; split; congruence. Qed.

(** ** Row evaluator *)

Ltac split_rules :=
  unfold rule_violations, rule_R1, rule_R2, rule_R3, py_gt;
  repeat match goal with
         | |- context [py_lt ?a ?b] => destruct (py_lt a b) eqn:?
         end.

Lemma evaluate_rules_violations (row : Row.t) :
  violations (evaluate_rules row) = rule_violations row.
Proof.
  unfold evaluate_rules.
  destruct (get (Row.is_weekend row) false && _); reflexivity.
Qed.

Lemma has_severity_In (l : Level) (vs : list Violation) :
  has_severity l vs = true <-> exists v, In v vs /\ severity v = l.
Proof.
  unfold has_severity. rewrite existsb_exists.
  split; intros [v [Hin Hv]]; exists v; split; auto; now apply Level_eqb_eq.
Qed.

Lemma has_severity_perm (l : Level) (vs vs' : list Violation) :
  Permutation vs vs' -> has_severity l vs = has_severity l vs'.
Proof.
  intros HP. unfold has_severity.
  induction HP; simpl; try congruence.
  destruct (Level_eqb (severity x) l), (Level_eqb (severity y) l); reflexivity.
Qed.

Lemma rollup_status_perm (vs vs' : list Violation) :
  Permutation vs vs' -> rollup_status vs' = rollup_status vs.
Proof.
  intros HP. unfold rollup_status.
  now rewrite (has_severity_perm CRITICAL _ _ HP), (has_severity_perm WARNING _ _ HP).
Qed.

Lemma rollup_status_max (vs : list Violation) :
  rollup_status vs = max_severity vs.
Proof.
  unfold rollup_status, has_severity.
  induction vs as [|v vs IH]; simpl; [reflexivity|].
  rewrite <- IH.
  destruct (severity v); simpl;
    destruct (existsb _ vs); simpl; try reflexivity;
    destruct (existsb _ vs); reflexivity.
Qed.

Lemma of_family_rules (row : Row.t) :
  of_family family_R1 (rule_violations row) = rule_R1 row /\
  of_family family_R2 (rule_violations row) = rule_R2 row /\
  of_family family_R3 (rule_violations row) = rule_R3 row.
Proof.
  split_rules; repeat split; reflexivity.
Qed.

(** C1: on a weekend row whose rollup status is CRITICAL, [evaluate_rules]
    answers WARNING with a non-empty adjustment note and the untouched
    violations of R1-R3, a CRITICAL entry still among them; on every other
    row it answers the rollup status and no note. *)
Theorem weekend_adjustment (row : Row.t) :
  (get (Row.is_weekend row) false = true ->
   rollup_status (rule_violations row) = CRITICAL ->
     status (evaluate_rules row) = WARNING /\
     (exists note, adjustment_note (evaluate_rules row) = Some note /\ note <> "") /\
     violations (evaluate_rules row) = rule_violations row /\
     (exists v, In v (violations (evaluate_rules row)) /\ severity v = CRITICAL)) /\
  (~ (get (Row.is_weekend row) false = true /\
      rollup_status (rule_violations row) = CRITICAL) ->
     status (evaluate_rules row) = rollup_status (rule_violations row) /\
     adjustment_note (evaluate_rules row) = None /\
     violations (evaluate_rules row) = rule_violations row).
Proof.
  split.
  - intros Hw Hc.
    assert (Hcrit : has_severity CRITICAL (rule_violations row) = true).
    { unfold rollup_status in Hc.
      destruct (has_severity CRITICAL (rule_violations row)); [reflexivity|].
      destruct (has_severity WARNING (rule_violations row)); discriminate. }
    rewrite evaluate_rules_violations.
    unfold evaluate_rules. rewrite Hw, Hc. simpl.
    repeat split.
    + exists weekend_note. split; [reflexivity | discriminate].
    + now apply has_severity_In.
  - intros Hn. unfold evaluate_rules.
    destruct (get (Row.is_weekend row) false) eqn:Hw; simpl.
    + destruct (rollup_status (rule_violations row)) eqn:Hc; simpl; auto.
      exfalso. apply Hn. split; reflexivity.
    + auto.
Qed.

Lemma weekend_adjustment_witness :
  status (evaluate_rules row_weekend) = WARNING /\
  status (evaluate_rules row_critical) = CRITICAL.
Proof.
  split.
  - apply (proj1 (weekend_adjustment row_weekend)); vm_compute; reflexivity.
  - apply (proj2 (weekend_adjustment row_critical)).
    intros [Hw _]. discriminate Hw.
Defined.

(** C2: the status before the weekend adjustment is one of OK, WARNING,
    CRITICAL, it is the greatest severity among the violations of R1-R3,
    and it is the same for any order of these violations. *)
Theorem rollup_is_max_severity (row : Row.t) :
  In (rollup_status (rule_violations row)) [OK; WARNING; CRITICAL] /\
  rollup_status (rule_violations row) = max_severity (rule_violations row) /\
  (has_severity CRITICAL (rule_violations row) = true ->
     rollup_status (rule_violations row) = CRITICAL) /\
  (has_severity CRITICAL (rule_violations row) = false ->
   has_severity WARNING (rule_violations row) = true ->
     rollup_status (rule_violations row) = WARNING) /\
  (has_severity CRITICAL (rule_violations row) = false ->
   has_severity WARNING (rule_violations row) = false ->
     rollup_status (rule_violations row) = OK) /\
  (forall vs, Permutation (rule_violations row) vs ->
     rollup_status vs = rollup_status (rule_violations row) /\
     max_severity vs = max_severity (rule_violations row)).
Proof.
  repeat split.
  - destruct (rollup_status (rule_violations row)); simpl; auto.
  - apply rollup_status_max.
  - intros H. unfold rollup_status. now rewrite H.
  - intros H1 H2. unfold rollup_status. now rewrite H1, H2.
  - intros H1 H2. unfold rollup_status. now rewrite H1, H2.
  - now apply rollup_status_perm.
  - rewrite <- !rollup_status_max. now apply rollup_status_perm.
Qed.

Lemma rollup_is_max_severity_witness :
  rollup_status (rule_violations row_critical) = CRITICAL /\
  rollup_status (rev (rule_violations row_critical)) = CRITICAL.
Proof.
  destruct (rollup_is_max_severity row_critical) as (_ & _ & Hc & _ & _ & Hp).
  assert (H : rollup_status (rule_violations row_critical) = CRITICAL)
    by (apply Hc; vm_compute; reflexivity).
  split; [exact H|].
  destruct (Hp _ (Permutation_rev (rule_violations row_critical))) as [Hr _].
  now rewrite Hr.
Defined.

Lemma rule_R3_unfold (row : Row.t) :
  rule_R3 row
  = if py_lt 0 (avg_7d row) then
      if py_lt (trend_ratio row) lit_0_70 then
        [mkViolation "R3.3" CRITICAL
           ("Sales " ++ fmt_1f (fmul (fsub 1 (trend_ratio row)) 100)
              ++ "% below 7-day average")]
      else if py_lt (trend_ratio row) lit_0_85 then
        [mkViolation "R3.2" WARNING
           ("Sales " ++ fmt_1f (fmul (fsub 1 (trend_ratio row)) 100)
              ++ "% below 7-day average")]
      else []
    else [].
Proof. reflexivity. Qed.

(** C3: the lower thresholds are strict.  A [delta_vs_target] of exactly
    -10 gives the single R1 violation R1.2 (WARNING), a [delta_vs_yesterday]
    of exactly -15 the single R2 violation R2.2 (WARNING); with a positive
    7-day average, a ratio that the code computes as exactly 0.85 gives no
    R3 violation and one computed as exactly 0.70 the single R3 violation
    R3.2 (WARNING).  The ratio is the double [total_sales / avg_7d_sales];
    0.85 and 0.70 are the doubles that the literals denote. *)
Theorem thresholds_are_strict (row : Row.t) :
  (get (Row.delta_vs_target row) 0 == -10 ->
     exists msg, of_family family_R1 (violations (evaluate_rules row))
                 = [mkViolation "R1.2" WARNING msg]) /\
  (get (Row.delta_vs_yesterday row) 0 == -15 ->
     exists msg, of_family family_R2 (violations (evaluate_rules row))
                 = [mkViolation "R2.2" WARNING msg]) /\
  (0 < avg_7d row -> trend_ratio row == lit_0_85 ->
     of_family family_R3 (violations (evaluate_rules row)) = []) /\
  (0 < avg_7d row -> trend_ratio row == lit_0_70 ->
     exists msg, of_family family_R3 (violations (evaluate_rules row))
                 = [mkViolation "R3.2" WARNING msg]).
Proof.
  rewrite evaluate_rules_violations.
  destruct (of_family_rules row) as (-> & -> & ->).
  destruct literals_in_order as (L0 & L1 & L2).
  split; [|split; [|split]].
  - intros H. unfold rule_R1.
    rewrite (get_number_eq _ (-10)); [|intros E; discriminate E | exact H].
    eexists. reflexivity.
  - intros H. unfold rule_R2.
    rewrite (get_number_eq _ (-15)); [|intros E; discriminate E | exact H].
    eexists. reflexivity.
  - intros Hpos H. rewrite rule_R3_unfold.
    apply py_lt_true in Hpos. rewrite Hpos.
    assert (H1 : py_lt (trend_ratio row) lit_0_70 = false)
      by (apply py_lt_false; rewrite H; apply Qlt_le_weak, L1).
    assert (H2 : py_lt (trend_ratio row) lit_0_85 = false)
      by (apply py_lt_false; rewrite H; apply Qle_refl).
    now rewrite H1, H2.
  - intros Hpos H. rewrite rule_R3_unfold.
    apply py_lt_true in Hpos. rewrite Hpos.
    assert (H1 : py_lt (trend_ratio row) lit_0_70 = false)
      by (apply py_lt_false; rewrite H; apply Qle_refl).
    assert (H2 : py_lt (trend_ratio row) lit_0_85 = true)
      by (apply py_lt_true; rewrite H; exact L1).
    rewrite H1, H2. eexists. reflexivity.
Qed.

Lemma thresholds_are_strict_witness :
  (exists msg, of_family family_R1 (violations (evaluate_rules row_boundary))
               = [mkViolation "R1.2" WARNING msg]) /\
  (exists msg, of_family family_R2 (violations (evaluate_rules row_boundary))
               = [mkViolation "R2.2" WARNING msg]) /\
  of_family family_R3 (violations (evaluate_rules row_boundary)) = [] /\
  (exists msg, of_family family_R3 (violations (evaluate_rules row_ratio_70))
               = [mkViolation "R3.2" WARNING msg]).
Proof.
  destruct (thresholds_are_strict row_boundary) as (H1 & H2 & H3 & _).
  destruct (thresholds_are_strict row_ratio_70) as (_ & _ & _ & H4).
  split; [|split; [|split]].
  - apply H1. vm_compute. reflexivity.
  - apply H2. vm_compute. reflexivity.
  - apply H3; vm_compute; reflexivity.
  - apply H4; vm_compute; reflexivity.
Defined.

Lemma rule_lengths (row : Row.t) :
  (List.length (rule_R1 row) <= 1)%nat /\
  (List.length (rule_R2 row) <= 1)%nat /\
  (List.length (rule_R3 row) <= 1)%nat.
Proof.
  split_rules; cbn [List.length]; lia.
Qed.

Lemma rule_codes (row : Row.t) :
  Forall (fun v => In (rule v) family_R1) (rule_R1 row) /\
  Forall (fun v => In (rule v) family_R2) (rule_R2 row) /\
  Forall (fun v => In (rule v) family_R3) (rule_R3 row).
Proof.
  split_rules; (split; [|split]);
    try apply Forall_nil;
    (apply Forall_cons; [cbn; auto | apply Forall_nil]).
Qed.

(** C10: [evaluate_rules] returns at most three violations, at most one
    from each of the families R1, R2 and R3, and none from elsewhere. *)
Theorem one_violation_per_family (row : Row.t) :
  (List.length (violations (evaluate_rules row)) <= 3)%nat /\
  (List.length (of_family family_R1 (violations (evaluate_rules row))) <= 1)%nat /\
  (List.length (of_family family_R2 (violations (evaluate_rules row))) <= 1)%nat /\
  (List.length (of_family family_R3 (violations (evaluate_rules row))) <= 1)%nat /\
  Forall (fun v => In (rule v) (family_R1 ++ family_R2 ++ family_R3)%list)
         (violations (evaluate_rules row)).
Proof.
  rewrite evaluate_rules_violations.
  destruct (of_family_rules row) as (-> & -> & ->).
  destruct (rule_lengths row) as (L1 & L2 & L3).
  destruct (rule_codes row) as (F1 & F2 & F3).
  split; [|split; [|split; [|split]]]; trivial.
  - unfold rule_violations. rewrite !length_app. lia.
  - unfold rule_violations. rewrite !Forall_app.
    split; [|split]; eapply Forall_impl; eauto; cbv beta; intros v Hv;
      rewrite !in_app_iff; auto.
Qed.

(** ** Lists, filters and prefixes *)

Lemma head_length {A : Type} (n : nat) (l : list A) :
  (List.length (head n l) <= n)%nat.
Proof.
  unfold head. revert l.
  induction n as [|n IH]; intros [|x l]; simpl; try lia.
  specialize (IH l). lia.
Qed.

Lemma head_In {A : Type} (n : nat) (l : list A) (x : A) :
  In x (head n l) -> In x l.
Proof.
  unfold head. revert l.
  induction n as [|n IH]; intros [|y l]; simpl; try tauto.
  intros [H | H]; [now left | right; now apply IH].
Qed.

Lemma head_Forall {A : Type} (P : A -> Prop) (n : nat) (l : list A) :
  Forall P l -> Forall P (head n l).
Proof.
  rewrite !Forall_forall. intros H x Hx. apply H. now apply head_In in Hx.
Qed.

Lemma head_StronglySorted {A : Type} (R : A -> A -> Prop) (n : nat) (l : list A) :
  StronglySorted R l -> StronglySorted R (head n l).
Proof.
  unfold head. revert l.
  induction n as [|n IH]; intros l HS; [constructor|].
  destruct l as [|x l]; [constructor|].
  apply StronglySorted_inv in HS. destruct HS as [HS Hx].
  simpl. constructor; [now apply IH | now apply (head_Forall _ n)].
Qed.

Lemma status_partition (df_results : ResultFrame) :
  (List.length (filter (has_status CRITICAL) df_results)
   + List.length (filter (has_status WARNING) df_results)
   + List.length (filter (has_status OK) df_results)
   = List.length df_results)%nat.
Proof.
  induction df_results as [|r rest IH]; [reflexivity|].
  unfold has_status in *. simpl.
  destruct (Evaluated.status r); simpl; lia.
Qed.

Lemma flagged_length (df_results : ResultFrame) :
  (List.length (filter is_flagged df_results)
   = List.length (filter (has_status CRITICAL) df_results)
     + List.length (filter (has_status WARNING) df_results))%nat.
Proof.
  induction df_results as [|r rest IH]; [reflexivity|].
  unfold is_flagged, has_status in *. simpl.
  destruct (Evaluated.status r); simpl; lia.
Qed.

Lemma is_flagged_status (r : Evaluated.t) :
  is_flagged r = true <->
  Evaluated.status r = CRITICAL \/ Evaluated.status r = WARNING.
Proof.
  unfold is_flagged, has_status.
  destruct (Evaluated.status r); simpl; split; intros H;
    try discriminate; auto; destruct H; discriminate.
Qed.

(** ** Aggregator *)

Lemma py_truediv_positive (x y : Q) :
  py_gt y 0 = true -> py_truediv x y = Ret (truediv x y).
Proof.
  unfold py_gt, py_truediv. intros H. apply py_lt_true in H.
  destruct (Qeq_bool y 0) eqn:E; [|reflexivity].
  apply Qeq_bool_eq in E. lra.
Qed.

(** The guarded division never raises. *)
Lemma calculate_achievement_total (total_sales total_target : Q) :
  calculate_achievement total_sales total_target
  = Ret (if py_gt total_target 0
         then fmul (truediv total_sales total_target) 100 else 0).
Proof.
  unfold calculate_achievement.
  destruct (py_gt total_target 0) eqn:E; [|reflexivity].
  now rewrite py_truediv_positive.
Qed.

Section AggregatorProperties.
Variable pd : Pandas.

(** The contract of [DataFrame.sort_values]: a rearrangement of the rows
    that is ordered by the key, in the direction asked for. *)
Hypothesis sort_values_perm :
  forall key ascending l, Permutation l (sort_values pd key ascending l).
Hypothesis sort_values_sorted :
  forall key ascending l,
    StronglySorted (key_order key ascending) (sort_values pd key ascending l).

Lemma aggregate_findings_returns (w : World) (df_results : ResultFrame) :
  exists s, aggregate_findings pd w df_results = Ret s.
Proof.
  destruct df_results as [|first rest].
  - eexists. reflexivity.
  - unfold aggregate_findings.
    rewrite calculate_achievement_total. unfold bind.
    eexists. reflexivity.
Qed.

Lemma ranked_list (l : Level) (ascending : bool) (n : nat)
  (df_results : ResultFrame) :
  let ranked :=
    head n (sort_values pd Evaluated.delta_vs_target ascending
              (filter (has_status l) df_results)) in
  Forall (fun r => Evaluated.status r = l /\ In r df_results) ranked /\
  StronglySorted (key_order Evaluated.delta_vs_target ascending) ranked /\
  (List.length ranked <= n)%nat.
Proof.
  cbv zeta. split; [|split].
  - apply head_Forall.
    eapply Permutation_Forall; [apply sort_values_perm|].
    apply Forall_forall. intros r Hr. apply filter_In in Hr.
    destruct Hr as [Hin Hs]. split; [|assumption].
    now apply Level_eqb_eq.
  - apply head_StronglySorted, sort_values_sorted.
  - apply head_length.
Qed.

(** C5: [critical_issues] holds CRITICAL records only, in ascending order
    of [delta_vs_target], at most 5 of them; [warning_issues] the same for
    WARNING records; [top_performers] holds OK records only, in descending
    order, at most 3; [flagged_items] is exactly the records whose status
    is CRITICAL or WARNING. *)
Theorem ranked_issue_lists (w : World) (df_results : ResultFrame) :
  exists s, aggregate_findings pd w df_results = Ret s /\
    (Forall (fun r => Evaluated.status r = CRITICAL /\ In r df_results)
            (Summary.critical_issues s) /\
     StronglySorted
       (fun a b => Evaluated.delta_vs_target a <= Evaluated.delta_vs_target b)
       (Summary.critical_issues s) /\
     (List.length (Summary.critical_issues s) <= 5)%nat) /\
    (Forall (fun r => Evaluated.status r = WARNING /\ In r df_results)
            (Summary.warning_issues s) /\
     StronglySorted
       (fun a b => Evaluated.delta_vs_target a <= Evaluated.delta_vs_target b)
       (Summary.warning_issues s) /\
     (List.length (Summary.warning_issues s) <= 5)%nat) /\
    (Forall (fun r => Evaluated.status r = OK /\ In r df_results)
            (Summary.top_performers s) /\
     StronglySorted
       (fun a b => Evaluated.delta_vs_target b <= Evaluated.delta_vs_target a)
       (Summary.top_performers s) /\
     (List.length (Summary.top_performers s) <= 3)%nat) /\
    Summary.flagged_items s = filter is_flagged df_results /\
    (forall r, In r (Summary.flagged_items s) <->
               In r df_results /\
               (Evaluated.status r = CRITICAL \/ Evaluated.status r = WARNING)).
Proof.
  destruct df_results as [|first rest].
  - eexists. split; [reflexivity|].
    cbn [_empty_summary Summary.critical_issues Summary.warning_issues
         Summary.top_performers Summary.flagged_items filter].
    assert (N : forall (P : Evaluated.t -> Prop) (R : Evaluated.t -> Evaluated.t -> Prop) (n : nat),
               Forall P [] /\ StronglySorted R [] /\ (@List.length Evaluated.t [] <= n)%nat).
    { intros. split; [constructor | split; [constructor | simpl; lia]]. }
    split; [apply N|]. split; [apply N|]. split; [apply N|].
    split; [reflexivity|]. intros r. simpl. tauto.
  - unfold aggregate_findings.
    rewrite calculate_achievement_total. unfold bind.
    eexists. split; [reflexivity|].
    cbn [Summary.critical_issues Summary.warning_issues
         Summary.top_performers Summary.flagged_items].
    split; [apply (ranked_list CRITICAL true 5)|].
    split; [apply (ranked_list WARNING true 5)|].
    split; [apply (ranked_list OK false 3)|].
    split; [reflexivity|].
    intros r. rewrite filter_In, is_flagged_status. reflexivity.
Qed.

(** C6: [portfolio_achievement] is (sum of total_sales / sum of
    target_daily) x 100 when the summed target is positive and 0 when it is
    0 (or negative), and the aggregator returns without raising.  The sums
    are the ones the summary holds, [float(Series.sum())] as pandas computes
    them; the quotient and the product are those of doubles. *)
Theorem achievement_guarded (w : World) (df_results : ResultFrame) :
  exists s, aggregate_findings pd w df_results = Ret s /\
    (df_results <> [] ->
       Summary.total_sales s
       = as_double (series_sum pd (map Evaluated.total_sales df_results)) /\
       Summary.total_target s
       = as_double (series_sum pd (map Evaluated.target_daily df_results))) /\
    (0 < Summary.total_target s ->
       Summary.portfolio_achievement s
       = fmul (truediv (Summary.total_sales s) (Summary.total_target s)) 100) /\
    (Summary.total_target s <= 0 -> Summary.portfolio_achievement s = 0).
Proof.
  destruct df_results as [|first rest].
  - eexists. split; [reflexivity|]. split; [congruence|]. split.
    + intros H. discriminate H.
    + reflexivity.
  - unfold aggregate_findings.
    rewrite calculate_achievement_total. unfold bind.
    eexists. split; [reflexivity|].
    cbn [Summary.portfolio_achievement Summary.total_sales Summary.total_target].
    split; [split; reflexivity|].
    set (total_target :=
           as_double (series_sum pd (map Evaluated.target_daily (first :: rest)))).
    split; intros H.
    + apply py_lt_true in H. unfold py_gt. now rewrite H.
    + assert (E : py_gt total_target 0 = false)
        by (unfold py_gt; now apply py_lt_false).
      now rewrite E.
Qed.

(** C9: the three status counts add up to [total_rows], and
    [flagged_items] has [critical_count + warning_count] entries; this
    covers the empty summary. *)
Theorem counts_add_up (w : World) (df_results : ResultFrame) :
  exists s, aggregate_findings pd w df_results = Ret s /\
    (Summary.critical_count s + Summary.warning_count s + Summary.ok_count s
     = Summary.total_rows s)%nat /\
    (List.length (Summary.flagged_items s)
     = Summary.critical_count s + Summary.warning_count s)%nat /\
    Summary.total_rows s = List.length df_results.
Proof.
  destruct df_results as [|first rest].
  - eexists. split; [reflexivity|]. cbn. auto.
  - unfold aggregate_findings.
    rewrite calculate_achievement_total. unfold bind.
    eexists. split; [reflexivity|].
    cbn [Summary.critical_count Summary.warning_count Summary.ok_count
         Summary.total_rows Summary.flagged_items].
    split; [apply status_partition|].
    split; [apply flagged_length | reflexivity].
Qed.
End AggregatorProperties.

(** ** Insertion sort meets the contract of [sort_values] *)

Lemma key_leb_order (key : Evaluated.t -> Q) (ascending : bool) (a b : Evaluated.t) :
  key_leb key ascending a b = true <-> key_order key ascending a b.
Proof.
  unfold key_leb, key_order. destruct ascending; apply Qle_bool_iff.
Qed.

Lemma key_order_total (key : Evaluated.t -> Q) (ascending : bool) (a b : Evaluated.t) :
  key_leb key ascending a b = false -> key_order key ascending b a.
Proof.
  unfold key_leb, key_order. intros H.
  destruct ascending;
    apply not_true_iff_false in H; rewrite Qle_bool_iff in H; lra.
Qed.

Lemma key_order_trans (key : Evaluated.t -> Q) (ascending : bool) (a b c : Evaluated.t) :
  key_order key ascending a b -> key_order key ascending b c ->
  key_order key ascending a c.
Proof.
  unfold key_order. destruct ascending; intros; lra.
Qed.

Lemma insert_by_perm (key : Evaluated.t -> Q) (ascending : bool)
  (x : Evaluated.t) (l : ResultFrame) :
  Permutation (x :: l) (insert_by key ascending x l).
Proof.
  induction l as [|y rest IH]; simpl; [apply Permutation_refl|].
  destruct (key_leb key ascending x y); [apply Permutation_refl|].
  eapply perm_trans; [apply perm_swap|]. now apply perm_skip.
Qed.

Lemma insert_by_sorted (key : Evaluated.t -> Q) (ascending : bool)
  (x : Evaluated.t) (l : ResultFrame) :
  StronglySorted (key_order key ascending) l ->
  StronglySorted (key_order key ascending) (insert_by key ascending x l).
Proof.
  induction l as [|y rest IH]; intros HS; simpl.
  - constructor; constructor.
  - apply StronglySorted_inv in HS. destruct HS as [HS Hy].
    destruct (key_leb key ascending x y) eqn:E.
    + apply key_leb_order in E.
      constructor; [constructor; assumption|].
      constructor; [assumption|].
      eapply Forall_impl; [|exact Hy].
      intros z Hz. now apply (key_order_trans key ascending x y z).
    + apply key_order_total in E.
      constructor; [now apply IH|].
      eapply Permutation_Forall; [apply insert_by_perm|].
      constructor; assumption.
Qed.

Lemma insertion_sort_perm (key : Evaluated.t -> Q) (ascending : bool) (l : ResultFrame) :
  Permutation l (insertion_sort key ascending l).
Proof.
  unfold insertion_sort.
  induction l as [|x l IH]; simpl; [constructor|].
  eapply perm_trans; [apply perm_skip, IH | apply insert_by_perm].
Qed.

Lemma insertion_sort_sorted (key : Evaluated.t -> Q) (ascending : bool) (l : ResultFrame) :
  StronglySorted (key_order key ascending) (insertion_sort key ascending l).
Proof.
  unfold insertion_sort.
  induction l as [|x l IH]; simpl; [constructor|].
  now apply insert_by_sorted.
Qed.

Lemma sample_summary_eq :
  aggregate_findings reference_pandas sample_world sample_results
  = Ret sample_summary.
Proof. vm_compute. reflexivity. Qed.

Lemma ranked_issue_lists_witness :
  exists s, aggregate_findings reference_pandas sample_world sample_results = Ret s /\
    map Evaluated.region (Summary.critical_issues s) = ["Jakarta"] /\
    map Evaluated.region (Summary.warning_issues s) = ["Bandung"; "Surabaya"] /\
    map Evaluated.region (Summary.top_performers s) = ["Medan"] /\
    (List.length (Summary.critical_issues s) <= 5)%nat.
Proof.
  destruct (ranked_issue_lists reference_pandas insertion_sort_perm
              insertion_sort_sorted sample_world sample_results)
    as (s & Hs & (_ & _ & Hlen) & _).
  exists s. split; [exact Hs|].
  pose proof sample_summary_eq as E. rewrite Hs in E. apply Ret_inj in E. subst s.
  split; [vm_compute; reflexivity|].
  split; [vm_compute; reflexivity|].
  split; [vm_compute; reflexivity | exact Hlen].
Defined.

Lemma achievement_guarded_witness :
  (exists s, aggregate_findings reference_pandas sample_world sample_results = Ret s /\
             Summary.portfolio_achievement s = fmul (truediv 35500 36444) 100) /\
  (exists s, aggregate_findings reference_pandas sample_world
               [result_of_row row_no_target] = Ret s /\
             Summary.portfolio_achievement s = 0).
Proof.
  split.
  - destruct (achievement_guarded reference_pandas sample_world sample_results)
      as (s & Hs & _ & Hpos & _).
    exists s. split; [exact Hs|].
    assert (E : Summary.total_sales s = 35500 /\ Summary.total_target s = 36444).
    { pose proof sample_summary_eq as E. rewrite Hs in E. apply Ret_inj in E. subst s.
      split; vm_compute; reflexivity. }
    destruct E as [Es Et]. rewrite <- Es, <- Et. apply Hpos.
    rewrite Et. reflexivity.
  - destruct (achievement_guarded reference_pandas sample_world
                [result_of_row row_no_target]) as (s & Hs & _ & _ & Hzero).
    exists s. split; [exact Hs|]. apply Hzero.
    assert (E : Summary.total_target s = 0).
    { vm_compute in Hs. injection Hs as <-. reflexivity. }
    rewrite E. apply Qle_refl.
Defined.

(** ** Daily processor and the complete analysis *)

Lemma get_latest_data_loaded (w : World) (self : Engine) (f : Frame) :
  df self = Some f ->
  get_latest_data w self
  = (self, if (0 <? frame_length f)%nat then rows_of_latest_date self f else Ret []).
Proof.
  intros H. unfold get_latest_data. rewrite H. cbn [bind]. now rewrite H.
Qed.

Lemma process_daily_data_of (w : World) (self self' : Engine) (latest : res DataFrame) :
  get_latest_data w self = (self', latest) ->
  process_daily_data w self = (self', df_latest <- latest ;; Ret (map result_of_row df_latest)).
Proof.
  intros H. unfold process_daily_data. rewrite H.
  destruct latest as [[|r rows]|e]; reflexivity.
Qed.





Lemma get_latest_data_stable
  (source : res Frame) (clock1 clock2 : nat -> Timestamp)
  (self self1 : Engine) (rows : DataFrame) :
  get_latest_data (mkWorld source clock1) self = (self1, Ret rows) ->
  get_latest_data (mkWorld source clock2) self1 = (self1, Ret rows).
Proof.
  destruct (df self) as [f|] eqn:E.
  - rewrite (get_latest_data_loaded _ self f E). intros H.
    assert (Hs : self1 = self) by (injection H; auto). subst self1.
    now rewrite (get_latest_data_loaded _ self f E).
  - unfold get_latest_data at 1. rewrite E. unfold load_data. cbn [read_csv].
    destruct source as [[loaded|n|n e]|e].
    + cbn [bind df]. intros H.
      assert (Hs : self1 = mkEngine (Some (Dated loaded)) (max_date loaded))
        by (injection H; auto).
      subst self1.
      rewrite (get_latest_data_loaded _
                 (mkEngine (Some (Dated loaded)) (max_date loaded))
                 (Dated loaded) eq_refl).
      exact H.
    + cbn [bind]. intros H. discriminate H.
    + destruct e; cbn [bind df]; intros H; try discriminate H.
      assert (Hs : self1
                   = mkEngine (Some (Unparsed n FileNotFoundError)) (latest_date self))
        by (injection H; auto).
      subst self1.
      rewrite (get_latest_data_loaded _
                 (mkEngine (Some (Unparsed n FileNotFoundError)) (latest_date self))
                 (Unparsed n FileNotFoundError) eq_refl).
      exact H.
    + destruct e; cbn [bind]; intros H; try discriminate H.
      assert (Hs : self1 = self) by (injection H; auto). subst self1.
      unfold get_latest_data, load_data. rewrite E. cbn [read_csv bind].
      exact H.
Qed.

Lemma process_daily_data_stable
  (source : res Frame) (clock1 clock2 : nat -> Timestamp)
  (self self1 : Engine) (df_results : ResultFrame) :
  process_daily_data (mkWorld source clock1) self = (self1, Ret df_results) ->
  process_daily_data (mkWorld source clock2) self1 = (self1, Ret df_results).
Proof.
  destruct (get_latest_data (mkWorld source clock1) self) as [self' latest] eqn:E.
  rewrite (process_daily_data_of _ _ _ _ E). intros H.
  assert (Hs : self' = self1) by (injection H; auto). subst self'.
  destruct latest as [rows|e]; cbn [bind] in H; [|discriminate H].
  rewrite (process_daily_data_of _ _ _ _
             (get_latest_data_stable _ _ clock2 _ _ _ E)).
  exact H.
Qed.

(** C8, as the code has it: a second run on the same data source repeats
    the summary and the report of the first whenever the table of the latest
    day has rows, whatever the clock; on an absent or empty data set it does
    so when both runs read the same date and weekday from the clock. *)
Theorem runs_agree_on_data (pd : Pandas) (source : res Frame)
  (clock1 clock2 : nat -> Timestamp) (self self1 : Engine) (s1 : Summary.t) :
  run_analysis pd (mkWorld source clock1) self = (self1, Ret s1) ->
  Summary.total_rows s1 <> 0%nat \/
  (strftime_Ymd (clock1 0%nat) = strftime_Ymd (clock2 0%nat) /\
   strftime_A (clock1 1%nat) = strftime_A (clock2 1%nat)) ->
  run_analysis pd (mkWorld source clock2) self1 = (self1, Ret s1) /\
  Summary.ai_insight s1
  = Some (generate_ai_insight (set_ai_insight s1 "")).
Proof.
  unfold run_analysis. intros H Hc.
  destruct (process_daily_data (mkWorld source clock1) self)
    as [self' processed] eqn:E.
  assert (Hs : self' = self1) by (injection H; auto). subst self'.
  destruct processed as [df_results|e]; cbn [bind] in H; [|discriminate H].
  destruct (aggregate_findings pd (mkWorld source clock1) df_results)
    as [s|e] eqn:Ea; cbn [bind] in H; [|discriminate H].
  assert (Hs1 : s1 = set_ai_insight s (generate_ai_insight s))
    by (injection H; auto).
  subst s1.
  rewrite (process_daily_data_stable _ _ clock2 _ _ _ E). cbn [bind].
  assert (Ea2 : aggregate_findings pd (mkWorld source clock2) df_results = Ret s).
  { destruct df_results as [|first rest]; [|exact Ea].
    cbn in Ea. injection Ea as <-.
    destruct Hc as [Hc | [Hd Hn]].
    - exfalso. apply Hc. reflexivity.
    - cbn. unfold _empty_summary. cbn [now]. now rewrite Hd, Hn. }
  rewrite Ea2. cbn [bind]. split; reflexivity.
Qed.

Lemma runs_agree_on_data_witness :
  exists s,
    run_analysis reference_pandas
      (mkWorld (Ret (Dated sample_frame)) (fun _ => tuesday)) init
    = (mkEngine (Some (Dated sample_frame)) (Some tuesday), Ret s) /\
    run_analysis reference_pandas sample_world
      (mkEngine (Some (Dated sample_frame)) (Some tuesday))
    = (mkEngine (Some (Dated sample_frame)) (Some tuesday), Ret s).
Proof.
  eexists. split.
  - vm_compute. reflexivity.
  - refine (proj1 (runs_agree_on_data reference_pandas (Ret (Dated sample_frame))
                     (fun _ => tuesday) (fun _ => wednesday) init _ _ _ _)).
    + vm_compute. reflexivity.
    + left. vm_compute. discriminate.
Defined.

(** C8 as stated fails: on a loaded table without rows, a run on Tuesday
    and a second run on Wednesday return summaries with different dates. *)
Lemma runs_disagree_across_days :
  ~ runs_agree reference_pandas (Ret (Dated []))
      (fun _ => tuesday) (fun _ => wednesday) init.
Proof.
  intros H.
  destruct (H (mkEngine (Some (Dated [])) None) _ eq_refl) as [self2 H2].
  apply (f_equal (fun r => option_map Summary.date (summary_of r))) in H2.
  vm_compute in H2. discriminate H2.
Qed.

(** ** Insight composer *)

Lemma append_assoc (a b c : string) : (a ++ b) ++ c = a ++ b ++ c.
Proof.
  induction a as [|ch a IH]; simpl; [reflexivity | now rewrite IH].
Qed.

Lemma critical_line_erase (issue : Evaluated.t) :
  critical_line (erase_violations issue) = critical_line issue.
Proof. reflexivity. Qed.

Lemma warning_line_erase (issue : Evaluated.t) :
  warning_line (erase_violations issue) = warning_line issue.
Proof. reflexivity. Qed.

Lemma head_map {A B : Type} (f : A -> B) (n : nat) (l : list A) :
  head n (map f l) = map f (head n l).
Proof. unfold head. apply firstn_map. Qed.

Lemma is_empty_map {A B : Type} (f : A -> B) (l : list A) :
  is_empty (map f l) = is_empty l.
Proof. destruct l; reflexivity. Qed.

Lemma entries_erase (s : Summary.t) :
  critical_entries (erase_summary_violations s) = critical_entries s /\
  warning_entries (erase_summary_violations s) = warning_entries s.
Proof.
  unfold critical_entries, warning_entries, erase_summary_violations.
  cbn [Summary.critical_issues Summary.warning_issues].
  rewrite !head_map, !map_map.
  split; apply map_ext; intros issue;
    [apply critical_line_erase | apply warning_line_erase].
Qed.

(** C4, as the code has it: the report lists the lines of at most 3 entries
    of [critical_issues] followed by those of at most 2 entries of
    [warning_issues]; each line is formatted from the region, product, sales
    and deltas of its item, and the report is unchanged when the violations
    of all items are erased. *)
Theorem report_entries (s : Summary.t) :
  (List.length (critical_entries s) <= 3)%nat /\
  (List.length (warning_entries s) <= 2)%nat /\
  Forall (fun line => exists issue,
            In issue (Summary.critical_issues s) /\ line = critical_line issue)
         (critical_entries s) /\
  Forall (fun line => exists issue,
            In issue (Summary.warning_issues s) /\ line = warning_line issue)
         (warning_entries s) /\
  (exists before after,
     generate_ai_insight s
     = before ++ String.concat "" (critical_entries s)
         ++ String.concat "" (warning_entries s) ++ after) /\
  generate_ai_insight (erase_summary_violations s) = generate_ai_insight s.
Proof.
  split; [|split; [|split; [|split; [|split]]]].
  - unfold critical_entries. rewrite length_map. apply head_length.
  - unfold warning_entries. rewrite length_map. apply head_length.
  - unfold critical_entries. apply Forall_forall. intros line Hl.
    apply in_map_iff in Hl. destruct Hl as (issue & <- & Hin).
    exists issue. split; [now apply head_In in Hin | reflexivity].
  - unfold warning_entries. apply Forall_forall. intros line Hl.
    apply in_map_iff in Hl. destruct Hl as (issue & <- & Hin).
    exists issue. split; [now apply head_In in Hin | reflexivity].
  - unfold generate_ai_insight, alerts_section.
    set (ce := String.concat "" (critical_entries s)).
    set (we := String.concat "" (warning_entries s)).
    match goal with
    | |- exists before after,
          ?h1 ++ ?day ++ ?h2 ++ ?date ++ ?h3 ++ ?h4 ++ ?h5 ++ ?h6 ++ ?ex
            ++ ?km ++ (?a1 ++ ?a2 ++ ?a3 ++ ce ++ we ++ ?fb) ++ ?rest = _ =>
        exists (h1 ++ day ++ h2 ++ date ++ h3 ++ h4 ++ h5 ++ h6 ++ ex
                  ++ km ++ a1 ++ a2 ++ a3), (fb ++ rest)
    end.
    rewrite !append_assoc. reflexivity.
  - unfold generate_ai_insight, alerts_section.
    destruct (entries_erase s) as [-> ->].
    unfold erase_summary_violations.
    cbn [Summary.overall_status Summary.date Summary.day_name
         Summary.critical_issues Summary.warning_issues].
    rewrite !is_empty_map. reflexivity.
Qed.

(** C4 as stated fails: the report on the sample table lists the critical
    Jakarta record, whose first violation reads "Missed target by 20.0%",
    and this message is nowhere in the report. *)
Lemma report_omits_violation_message :
  ~ entries_show_first_violation sample_summary.
Proof.
  intros H.
  specialize (H (result_of_row row_critical)
                (mkViolation "R1.3" CRITICAL "Missed target by 20.0%")).
  assert (Hin : In (result_of_row row_critical)
                   (head 3 (Summary.critical_issues sample_summary)
                      ++ head 2 (Summary.warning_issues sample_summary))%list).
  { vm_compute. left. reflexivity. }
  assert (Hv : hd_error (Evaluated.violations (result_of_row row_critical))
               = Some (mkViolation "R1.3" CRITICAL "Missed target by 20.0%")).
  { vm_compute. reflexivity. }
  specialize (H Hin Hv).
  vm_compute in H. discriminate H.
Qed.

(** * Further properties of the engine and of the views *)

(** ** Row evaluator: statuses, violations and thresholds *)

Ltac q_facts :=
  repeat match goal with
         | H : py_lt _ _ = true |- _ => apply py_lt_true in H
         | H : py_lt _ _ = false |- _ => apply py_lt_false in H
         end.




Lemma rule_R3_cases (row : Row.t) :
  (rule_R3 row = [] <-> avg_7d row <= 0 \/ lit_0_85 <= trend_ratio row) /\
  (has_severity CRITICAL (rule_R3 row) = true <->
   0 < avg_7d row /\ trend_ratio row < lit_0_70) /\
  (has_severity WARNING (rule_R3 row) = true <->
   0 < avg_7d row /\ lit_0_70 <= trend_ratio row /\ trend_ratio row < lit_0_85).
Proof.
  rewrite rule_R3_unfold.
  destruct literals_in_order as (_ & L & _). revert L.
  generalize lit_0_70, lit_0_85. intros c70 c85 L.
  destruct (py_lt 0 (avg_7d row)) eqn:E0;
    [destruct (py_lt (trend_ratio row) c70) eqn:E1;
     [|destruct (py_lt (trend_ratio row) c85) eqn:E2]|];
    q_facts; cbn [has_severity existsb severity Level_eqb orb];
    (split; [|split]); split; intros H; try discriminate H; try reflexivity;
    try (destruct H as [H | H]; lra); try (destruct H; lra);
    try (split; [lra | try split; lra]); try (right; lra); try (left; lra).
Qed.

Lemma rule_severities (row : Row.t) :
  Forall (fun v => severity v <> OK) (rule_violations row).
Proof.
  unfold rule_violations. rewrite !Forall_app.
  unfold rule_R1, rule_R2, rule_R3, py_gt.
  repeat match goal with
         | |- context [py_lt ?a ?b] => destruct (py_lt a b)
         end;
    (split; [|split]); try apply Forall_nil;
    (apply Forall_cons; [cbn [severity]; discriminate | apply Forall_nil]).
Qed.

Lemma no_severity_nil (vs : list Violation) :
  Forall (fun v => severity v <> OK) vs ->
  has_severity CRITICAL vs = false -> has_severity WARNING vs = false ->
  vs = [].
Proof.
  destruct vs as [|v vs]; [reflexivity|].
  intros HF HC HW. apply Forall_inv in HF.
  unfold has_severity in HC, HW. cbn [existsb] in HC, HW.
  destruct (severity v); cbn in HC, HW; try discriminate. now elim HF.
Qed.

Lemma rollup_ok_nil (row : Row.t) :
  rollup_status (rule_violations row) = OK <-> rule_violations row = [].
Proof.
  split.
  - intros H. unfold rollup_status in H.
    destruct (has_severity CRITICAL (rule_violations row)) eqn:EC; [discriminate|].
    destruct (has_severity WARNING (rule_violations row)) eqn:EW; [discriminate|].
    apply no_severity_nil; auto using rule_severities.
  - intros ->. reflexivity.
Qed.

Lemma rollup_critical (vs : list Violation) :
  rollup_status vs = CRITICAL <-> has_severity CRITICAL vs = true.
Proof.
  unfold rollup_status.
  destruct (has_severity CRITICAL vs); [tauto|].
  destruct (has_severity WARNING vs); split; discriminate.
Qed.

Lemma evaluate_rules_status (row : Row.t) :
  status (evaluate_rules row)
  = if weekend row && Level_eqb (rollup_status (rule_violations row)) CRITICAL
    then WARNING else rollup_status (rule_violations row).
Proof.
  unfold evaluate_rules, weekend.
  destruct (get (Row.is_weekend row) false && _); reflexivity.
Qed.

Lemma status_ok_nil (row : Row.t) :
  status (evaluate_rules row) = OK <-> rule_violations row = [].
Proof.
  rewrite evaluate_rules_status, <- rollup_ok_nil.
  destruct (weekend row), (rollup_status (rule_violations row));
    cbn; split; intros H; try discriminate H; reflexivity.
Qed.

(** X1: a row is OK exactly when no rule fired, and a row that is not OK
    carries at least one violation. *)
Theorem status_ok_iff_no_violations (row : Row.t) :
  status (evaluate_rules row) = OK <-> violations (evaluate_rules row) = [].
Proof.
  rewrite evaluate_rules_violations. apply status_ok_nil.
Qed.

(** X2: CRITICAL is returned exactly for a weekday row with a CRITICAL
    violation; the adjustment note is set, and always to the same text,
    exactly for a weekend row with a CRITICAL violation. *)
Theorem critical_only_on_weekdays (row : Row.t) :
  (status (evaluate_rules row) = CRITICAL <->
   weekend row = false /\
   has_severity CRITICAL (violations (evaluate_rules row)) = true) /\
  (adjustment_note (evaluate_rules row) = Some weekend_note <->
   weekend row = true /\
   has_severity CRITICAL (violations (evaluate_rules row)) = true) /\
  (adjustment_note (evaluate_rules row) = None \/
   adjustment_note (evaluate_rules row) = Some weekend_note).
Proof.
  rewrite evaluate_rules_violations, evaluate_rules_status.
  rewrite <- rollup_critical.
  unfold evaluate_rules. fold (weekend row).
  destruct (weekend row), (rollup_status (rule_violations row));
    cbn; (split; [|split]); try tauto;
    split; intros H; try discriminate H; try (destruct H as [H1 H2]; discriminate);
    auto.
Qed.


(** X4: without an [avg_7d_sales] column the average defaults to the row's
    own sales, and the trend rule never fires. *)
Theorem missing_average_is_normal (row : Row.t) :
  Row.avg_7d_sales row = None ->
  of_family family_R3 (violations (evaluate_rules row)) = [].
Proof.
  intros Havg. rewrite evaluate_rules_violations.
  destruct (of_family_rules row) as (_ & _ & ->).
  apply (proj1 (rule_R3_cases row)).
  assert (Ha : avg_7d row = total_sales_read row)
    by (unfold avg_7d, get_number; now rewrite Havg).
  unfold trend_ratio. rewrite Ha.
  set (total := total_sales_read row).
  destruct (Qlt_le_dec 0 total) as [Hpos | Hneg]; [right | left; exact Hneg].
  assert (E : total / total == 1) by (field; lra).
  unfold truediv. rewrite (round64_eq _ _ E).
  vm_compute. congruence.
Qed.

Lemma missing_average_is_normal_witness :
  of_family family_R3
    (violations (evaluate_rules
       (Row.mk tuesday None None None None (Some 5000) None None None None None
          None None))) = [].
Proof.
  apply missing_average_is_normal. reflexivity.
Defined.

(** X5: the rules read the sales from [total_sales] only.  A row that has
    its sales under [sales] and a positive 7-day average gets the CRITICAL
    trend violation R3.3 whatever the sales are, while its result record
    shows the [sales] value as [total_sales]. *)
Theorem sales_alias_not_seen_by_rules (row : Row.t) :
  Row.total_sales row = None ->
  0 < avg_7d row ->
  (exists msg, of_family family_R3 (violations (evaluate_rules row))
               = [mkViolation "R3.3" CRITICAL msg]) /\
  status (evaluate_rules row) <> OK /\
  Evaluated.total_sales (result_of_row row) = get_number (Row.sales row) 0.
Proof.
  intros Htot Hpos.
  assert (Hr : exists msg, rule_R3 row = [mkViolation "R3.3" CRITICAL msg]).
  { rewrite rule_R3_unfold.
    assert (H0 : py_lt 0 (avg_7d row) = true) by now apply py_lt_true.
    assert (H1 : py_lt (trend_ratio row) lit_0_70 = true).
    { apply py_lt_true.
      assert (Ht : total_sales_read row = 0)
        by (unfold total_sales_read, get_number; now rewrite Htot).
      unfold trend_ratio. rewrite Ht.
      assert (E : 0 / avg_7d row == 0) by (field; lra).
      unfold truediv. rewrite (round64_eq _ _ E). vm_compute. reflexivity. }
    rewrite H0, H1. eexists. reflexivity. }
  destruct Hr as [msg Hr].
  split; [|split].
  - rewrite evaluate_rules_violations.
    destruct (of_family_rules row) as (_ & _ & ->).
    exists msg. exact Hr.
  - rewrite status_ok_nil. unfold rule_violations. rewrite Hr.
    intros H. apply app_eq_nil in H. destruct H as [_ H].
    apply app_eq_nil in H. destruct H as [_ H]. discriminate H.
  - unfold result_of_row. cbn [Evaluated.total_sales]. now rewrite Htot.
Qed.

Lemma sales_alias_not_seen_by_rules_witness :
  status (evaluate_rules row_sales_alias) <> OK /\
  Evaluated.total_sales (result_of_row row_sales_alias) = 10000.
Proof.
  destruct (sales_alias_not_seen_by_rules row_sales_alias) as (_ & H1 & H2);
    [reflexivity | vm_compute; reflexivity | ].
  split; [exact H1 | exact H2].
Defined.

(** ** Loading and the selection of the latest day *)

Lemma max_date_spec (rows : DataFrame) (d : Timestamp) :
  max_date rows = Some d ->
  Forall (fun r => (Row.date r <= d)%Z) rows /\
  exists r, In r rows /\ Row.date r = d.
Proof.
  revert d. induction rows as [|r rest IH]; intros d H; [discriminate|].
  cbn [max_date] in H.
  destruct (max_date rest) as [d'|] eqn:E.
  - injection H as <-. destruct (IH d' eq_refl) as [HF [r' [Hin Hd]]].
    split.
    + constructor; [lia|].
      eapply Forall_impl; [|exact HF]. cbv beta. intros; lia.
    + destruct (Z.max_spec (Row.date r) d') as [[_ ->] | [_ ->]].
      * exists r'. split; [now right | assumption].
      * exists r. split; [now left | reflexivity].
  - injection H as <-. destruct rest; [|cbn in E; destruct (max_date rest); discriminate].
    split; [constructor; [lia | constructor] | exists r; split; [now left | reflexivity]].
Qed.

Lemma max_date_nonempty (rows : DataFrame) :
  rows <> [] -> exists d, max_date rows = Some d.
Proof.
  destruct rows as [|r rest]; [congruence|]. intros _.
  cbn [max_date]. destruct (max_date rest); eexists; reflexivity.
Qed.

Lemma process_daily_data_loaded (w : World) (self : Engine)
  (rows : DataFrame) (d : Timestamp) :
  rows <> [] -> max_date rows = Some d ->
  (df self = None /\ read_csv w = Ret (Dated rows)) \/
  (df self = Some (Dated rows) /\ latest_date self = Some d) ->
  process_daily_data w self
  = (mkEngine (Some (Dated rows)) (Some d),
     Ret (map result_of_row (filter (fun r => (Row.date r =? d)%Z) rows))).
Proof.
  intros Hne Hd Hs.
  assert (Hlen : (0 <? List.length rows)%nat = true)
    by (destruct rows; [congruence | reflexivity]).
  assert (G : get_latest_data w self
              = (mkEngine (Some (Dated rows)) (Some d),
                 Ret (filter (fun r => (Row.date r =? d)%Z) rows))).
  { destruct self as [loaded latest]. cbn [df latest_date] in Hs.
    destruct Hs as [[-> Hr] | [-> ->]].
    - unfold get_latest_data, load_data. rewrite Hr.
      cbn [df bind frame_length]. rewrite Hlen, Hd. reflexivity.
    - rewrite (get_latest_data_loaded _ (mkEngine (Some (Dated rows)) (Some d))
                 (Dated rows) eq_refl).
      cbn [frame_length]. rewrite Hlen. reflexivity. }
  rewrite (process_daily_data_of _ _ _ _ G). reflexivity.
Qed.

(** X6: on a loaded table with rows, the daily processor returns one result
    per row of the greatest date present, in table order, and nothing from
    earlier days; this table is never empty. *)
Theorem latest_day_selected (w : World) (rows : DataFrame) :
  rows <> [] -> read_csv w = Ret (Dated rows) ->
  exists d,
    max_date rows = Some d /\
    Forall (fun r => (Row.date r <= d)%Z) rows /\
    process_daily_data w init
    = (mkEngine (Some (Dated rows)) (Some d),
       Ret (map result_of_row (filter (fun r => (Row.date r =? d)%Z) rows))) /\
    filter (fun r => (Row.date r =? d)%Z) rows <> [].
Proof.
  intros Hne Hread.
  destruct (max_date_nonempty rows Hne) as [d Hd].
  destruct (max_date_spec rows d Hd) as [HF [r [Hin Hr]]].
  exists d. split; [assumption|]. split; [assumption|]. split.
  - apply process_daily_data_loaded; auto.
  - intros Hnil.
    assert (Hf : In r (filter (fun r => (Row.date r =? d)%Z) rows)).
    { apply filter_In. split; [assumption | now apply Z.eqb_eq]. }
    rewrite Hnil in Hf. destruct Hf.
Qed.

Lemma latest_day_selected_witness :
  exists self rs,
    process_daily_data (mkWorld (Ret (Dated two_day_frame)) (fun _ => tuesday)) init
    = (self, Ret rs) /\
    map Evaluated.date rs = [saturday].
Proof.
  destruct (latest_day_selected
              (mkWorld (Ret (Dated two_day_frame)) (fun _ => tuesday))
              two_day_frame) as (d & Hd & _ & Hp & _).
  - discriminate.
  - reflexivity.
  - do 2 eexists. split; [exact Hp|].
    vm_compute in Hd. injection Hd as <-. vm_compute. reflexivity.
Defined.

(** X7: the table is read once.  After a first run that loaded it, a later
    run on the same engine returns the same results whatever the file has
    become since (changed, removed or unreadable). *)
Theorem loaded_table_is_cached (rows : DataFrame) (source : res Frame)
  (clock1 clock2 : nat -> Timestamp) :
  exists self1 rs,
    process_daily_data (mkWorld (Ret (Dated rows)) clock1) init = (self1, Ret rs) /\
    df self1 = Some (Dated rows) /\
    process_daily_data (mkWorld source clock2) self1 = (self1, Ret rs).
Proof.
  destruct rows as [|r rest].
  - exists (mkEngine (Some (Dated [])) None), [].
    split; [reflexivity|]. split; reflexivity.
  - destruct (max_date_nonempty (r :: rest)) as [d Hd]; [discriminate|].
    do 2 eexists. split; [|split].
    + apply (process_daily_data_loaded _ _ (r :: rest) d); [discriminate | exact Hd |].
      left. split; reflexivity.
    + reflexivity.
    + apply (process_daily_data_loaded _ _ (r :: rest) d); [discriminate | exact Hd |].
      right. split; reflexivity.
Qed.

Lemma run_analysis_raises (pd : Pandas) (w : World) (self self' : Engine) (e : exn) :
  get_latest_data w self = (self', Raise e) ->
  run_analysis pd w self = (self', Raise e) /\
  overview pd w self = (self', ErrorPage (str_exn e) 500) /\
  alerts pd w self = (self', ErrorPage (str_exn e) 500).
Proof.
  intros H.
  assert (Hrun : run_analysis pd w self = (self', Raise e)).
  { unfold run_analysis. now rewrite (process_daily_data_of _ _ _ _ H). }
  unfold overview, alerts. rewrite Hrun. auto.
Qed.

(** X8: only a missing file is tolerated.  When the engine has no table
    yet and [read_csv] raises anything else, the analysis ends with that
    exception and the engine is as before.  When the table is read but its
    date column is missing or is rejected by [to_datetime] (with anything
    else than the exception the handler catches), the analysis ends with
    that exception and the engine keeps the unconverted table.  In
    each case the overview and alerts views answer with the error page
    carrying the text of the exception and code 500. *)
Theorem read_errors_reach_the_error_page (pd : Pandas) (w : World)
  (self : Engine) :
  df self = None ->
  (forall e, read_csv w = Raise e -> e <> FileNotFoundError ->
     run_analysis pd w self = (self, Raise e) /\
     overview pd w self = (self, ErrorPage (str_exn e) 500) /\
     alerts pd w self = (self, ErrorPage (str_exn e) 500)) /\
  (forall n, read_csv w = Ret (Undated n) ->
     run_analysis pd w self
     = (mkEngine (Some (Undated n)) (latest_date self), Raise (KeyError "date")) /\
     overview pd w self
     = (mkEngine (Some (Undated n)) (latest_date self), ErrorPage "'date'" 500) /\
     alerts pd w self
     = (mkEngine (Some (Undated n)) (latest_date self), ErrorPage "'date'" 500)) /\
  (forall n e, read_csv w = Ret (Unparsed n e) -> e <> FileNotFoundError ->
     run_analysis pd w self
     = (mkEngine (Some (Unparsed n e)) (latest_date self), Raise e) /\
     overview pd w self
     = (mkEngine (Some (Unparsed n e)) (latest_date self),
        ErrorPage (str_exn e) 500) /\
     alerts pd w self
     = (mkEngine (Some (Unparsed n e)) (latest_date self),
        ErrorPage (str_exn e) 500)).
Proof.
  intros Hdf. split; [|split].
  - intros e Hread He. apply run_analysis_raises.
    unfold get_latest_data, load_data. rewrite Hdf, Hread.
    destruct e; try congruence; reflexivity.
  - intros n Hread.
    apply (run_analysis_raises pd w self _ (KeyError "date")).
    unfold get_latest_data, load_data. rewrite Hdf, Hread. reflexivity.
  - intros n e Hread He. apply run_analysis_raises.
    unfold get_latest_data, load_data. rewrite Hdf, Hread.
    destruct e; try congruence; reflexivity.
Qed.

Lemma read_errors_reach_the_error_page_witness :
  overview reference_pandas
    (mkWorld (Raise EmptyDataError) (fun _ => tuesday)) init
  = (init, ErrorPage "No columns to parse from file" 500) /\
  overview reference_pandas
    (mkWorld (Ret (Undated 3)) (fun _ => tuesday)) init
  = (mkEngine (Some (Undated 3)) None, ErrorPage "'date'" 500).
Proof.
  destruct (read_errors_reach_the_error_page reference_pandas
              (mkWorld (Raise EmptyDataError) (fun _ => tuesday)) init eq_refl)
    as (H1 & _).
  destruct (read_errors_reach_the_error_page reference_pandas
              (mkWorld (Ret (Undated 3)) (fun _ => tuesday)) init eq_refl)
    as (_ & H2 & _).
  split.
  - apply (H1 EmptyDataError); [reflexivity | discriminate].
  - apply (H2 3%nat). reflexivity.
Defined.

(** ** Aggregator: counts, overall status and achievement *)

Lemma aggregate_scalars (pd : Pandas) (w : World)
  (df_results : ResultFrame) (s : Summary.t) :
  aggregate_findings pd w df_results = Ret s ->
  Summary.total_rows s = List.length df_results /\
  Summary.critical_count s = List.length (filter (has_status CRITICAL) df_results) /\
  Summary.warning_count s = List.length (filter (has_status WARNING) df_results) /\
  Summary.ok_count s = List.length (filter (has_status OK) df_results) /\
  Summary.overall_status s
  = status_of_counts (Summary.critical_count s) (Summary.warning_count s) /\
  Summary.flagged_items s = filter is_flagged df_results.
Proof.
  destruct df_results as [|first rest].
  - intros H. injection H as <-. repeat split.
  - unfold aggregate_findings.
    rewrite calculate_achievement_total. unfold bind.
    intros H. injection H as <-. repeat split.
Qed.

Lemma Level_max_critical (l : Level) : Level_max CRITICAL l = CRITICAL.
Proof. destruct l; reflexivity. Qed.

Lemma status_of_counts_max (df_results : ResultFrame) :
  status_of_counts (List.length (filter (has_status CRITICAL) df_results))
                   (List.length (filter (has_status WARNING) df_results))
  = max_status df_results.
Proof.
  induction df_results as [|r rest IH]; [reflexivity|].
  cbn [max_status fold_right]. fold (max_status rest). rewrite <- IH.
  cbn [filter].
  assert (HC : has_status CRITICAL r = Level_eqb (Evaluated.status r) CRITICAL)
    by reflexivity.
  assert (HW : has_status WARNING r = Level_eqb (Evaluated.status r) WARNING)
    by reflexivity.
  rewrite HC, HW.
  destruct (Evaluated.status r); cbn [Level_eqb List.length];
    unfold status_of_counts;
    destruct (List.length (filter (has_status CRITICAL) rest));
    destruct (List.length (filter (has_status WARNING) rest)); reflexivity.
Qed.

Lemma filter_nil_length {A : Type} (l : list A) : l = [] <-> List.length l = 0%nat.
Proof. destruct l; cbn; split; intros; congruence. Qed.

(** X9: the overall status is the greatest status among the records; it is
    OK exactly when nothing is flagged, and CRITICAL exactly when some
    record is CRITICAL. *)
Theorem overall_status_is_max (pd : Pandas) (w : World)
  (df_results : ResultFrame) :
  exists s, aggregate_findings pd w df_results = Ret s /\
    Summary.overall_status s = max_status df_results /\
    (Summary.overall_status s = OK <-> Summary.flagged_items s = []) /\
    (Summary.overall_status s = CRITICAL <->
     exists r, In r df_results /\ Evaluated.status r = CRITICAL).
Proof.
  destruct (aggregate_findings_returns pd w df_results) as [s Hs].
  exists s. split; [exact Hs|].
  destruct (aggregate_scalars _ _ _ _ Hs)
    as (_ & Hc & Hw & _ & Ho & Hf).
  rewrite Ho, Hc, Hw, Hf. split; [apply status_of_counts_max|]. split.
  - rewrite filter_nil_length, flagged_length.
    unfold status_of_counts.
    destruct (List.length (filter (has_status CRITICAL) df_results));
      destruct (List.length (filter (has_status WARNING) df_results));
      cbn; split; intros H; try discriminate H; try reflexivity; lia.
  - unfold status_of_counts.
    destruct (filter (has_status CRITICAL) df_results) as [|r0 l0] eqn:E; cbn.
    + split.
      * intros H.
        destruct (List.length (filter (has_status WARNING) df_results));
          discriminate H.
      * intros (r & Hin & Hr).
        assert (Hx : In r (filter (has_status CRITICAL) df_results)).
        { apply filter_In. split; [assumption|]. now apply Level_eqb_eq. }
        rewrite E in Hx. destruct Hx.
    + split; [|reflexivity]. intros _.
      assert (Hx : In r0 (filter (has_status CRITICAL) df_results))
        by (rewrite E; now left).
      apply filter_In in Hx. destruct Hx as [Hin Hr].
      exists r0. split; [assumption | now apply Level_eqb_eq].
Qed.

(** ** Aggregator: the ranked lists *)

Lemma head_length_min {A : Type} (n : nat) (l : list A) :
  List.length (head n l) = Nat.min n (List.length l).
Proof.
  unfold head. revert l.
  induction n as [|n IH]; intros [|x l]; cbn; try reflexivity.
  now rewrite IH.
Qed.

Lemma head_skipn {A : Type} (n : nat) (l : list A) : (head n l ++ skipn n l)%list = l.
Proof. unfold head. apply firstn_skipn. Qed.

Lemma skipn_In {A : Type} (n : nat) (l : list A) (x : A) :
  In x (skipn n l) -> In x l.
Proof.
  intros H. rewrite <- (head_skipn n l). apply in_or_app. now right.
Qed.

Lemma head_below_rest {A : Type} (R : A -> A -> Prop) (n : nat) (l : list A) :
  StronglySorted R l -> Forall (fun a => Forall (R a) (skipn n l)) (head n l).
Proof.
  unfold head. revert l.
  induction n as [|n IH]; intros l HS; [constructor|].
  destruct l as [|x l]; [constructor|].
  apply StronglySorted_inv in HS. destruct HS as [HS Hx].
  cbn [firstn skipn]. constructor; [|now apply IH].
  apply Forall_forall. intros b Hb. apply skipn_In in Hb.
  rewrite Forall_forall in Hx. now apply Hx.
Qed.

Lemma weekend_not_critical (row : Row.t) :
  weekend row = true -> Evaluated.status (result_of_row row) <> CRITICAL.
Proof.
  intros Hw. unfold result_of_row. cbn [Evaluated.status].
  rewrite evaluate_rules_status, Hw.
  destruct (rollup_status (rule_violations row)); cbn; discriminate.
Qed.

Lemma result_has_violation (row : Row.t) :
  Evaluated.status (result_of_row row) <> OK ->
  exists v, hd_error (Evaluated.violations (result_of_row row)) = Some v.
Proof.
  unfold result_of_row. cbn [Evaluated.status Evaluated.violations].
  intros H. rewrite evaluate_rules_violations.
  destruct (rule_violations row) as [|v vs] eqn:E.
  - elim H. now apply status_ok_nil.
  - exists v. reflexivity.
Qed.

Section RankedLists.
Variable pd : Pandas.

Hypothesis sort_values_perm :
  forall key ascending l, Permutation l (sort_values pd key ascending l).
Hypothesis sort_values_sorted :
  forall key ascending l,
    StronglySorted (key_order key ascending) (sort_values pd key ascending l).

Lemma sort_values_nil key ascending : sort_values pd key ascending [] = [].
Proof. apply Permutation_nil, sort_values_perm. Qed.

Lemma sort_values_length key ascending (l : ResultFrame) :
  List.length (sort_values pd key ascending l) = List.length l.
Proof. symmetry. apply Permutation_length, sort_values_perm. Qed.

Lemma aggregate_lists (w : World) (df_results : ResultFrame) (s : Summary.t) :
  aggregate_findings pd w df_results = Ret s ->
  Summary.critical_issues s
  = head 5 (sort_values pd Evaluated.delta_vs_target true
              (filter (has_status CRITICAL) df_results)) /\
  Summary.warning_issues s
  = head 5 (sort_values pd Evaluated.delta_vs_target true
              (filter (has_status WARNING) df_results)) /\
  Summary.top_performers s
  = head 3 (sort_values pd Evaluated.delta_vs_target false
              (filter (has_status OK) df_results)).
Proof.
  destruct df_results as [|first rest].
  - intros H. injection H as <-. cbn [filter]. rewrite !sort_values_nil.
    repeat split.
  - unfold aggregate_findings.
    rewrite calculate_achievement_total. unfold bind.
    intros H. injection H as <-. repeat split.
Qed.

Lemma ranked_prefix (l : Level) (ascending : bool) (n : nat)
  (df_results : ResultFrame) :
  exists rest,
    Permutation (filter (has_status l) df_results)
      (head n (sort_values pd Evaluated.delta_vs_target ascending
                 (filter (has_status l) df_results)) ++ rest) /\
    Forall (fun a => Forall (key_order Evaluated.delta_vs_target ascending a) rest)
      (head n (sort_values pd Evaluated.delta_vs_target ascending
                 (filter (has_status l) df_results))) /\
    List.length (head n (sort_values pd Evaluated.delta_vs_target ascending
                           (filter (has_status l) df_results)))
    = Nat.min n (List.length (filter (has_status l) df_results)).
Proof.
  exists (skipn n (sort_values pd Evaluated.delta_vs_target ascending
                     (filter (has_status l) df_results))).
  split; [|split].
  - rewrite head_skipn. apply sort_values_perm.
  - apply head_below_rest, sort_values_sorted.
  - rewrite head_length_min, sort_values_length. reflexivity.
Qed.

(** X11: the issue lists keep the worst records.  [critical_issues] and
    [warning_issues] hold min(5, count) records of their status, and every
    record of that status left out has a [delta_vs_target] at least as large
    as every one listed; [top_performers] holds min(3, ok_count) OK records
    and every OK record left out has a delta no larger than every one
    listed. *)
Theorem worst_issues_first (w : World) (df_results : ResultFrame) :
  exists s, aggregate_findings pd w df_results = Ret s /\
    (exists rest,
       Permutation (filter (has_status CRITICAL) df_results)
         (Summary.critical_issues s ++ rest) /\
       Forall (fun a => Forall (fun b => Evaluated.delta_vs_target a
                                          <= Evaluated.delta_vs_target b) rest)
         (Summary.critical_issues s) /\
       List.length (Summary.critical_issues s)
       = Nat.min 5 (Summary.critical_count s)) /\
    (exists rest,
       Permutation (filter (has_status WARNING) df_results)
         (Summary.warning_issues s ++ rest) /\
       Forall (fun a => Forall (fun b => Evaluated.delta_vs_target a
                                          <= Evaluated.delta_vs_target b) rest)
         (Summary.warning_issues s) /\
       List.length (Summary.warning_issues s)
       = Nat.min 5 (Summary.warning_count s)) /\
    (exists rest,
       Permutation (filter (has_status OK) df_results)
         (Summary.top_performers s ++ rest) /\
       Forall (fun a => Forall (fun b => Evaluated.delta_vs_target b
                                          <= Evaluated.delta_vs_target a) rest)
         (Summary.top_performers s) /\
       List.length (Summary.top_performers s)
       = Nat.min 3 (Summary.ok_count s)).
Proof.
  destruct (aggregate_findings_returns pd w df_results) as [s Hs].
  exists s. split; [exact Hs|].
  destruct (aggregate_lists _ _ _ Hs) as (-> & -> & ->).
  destruct (aggregate_scalars _ _ _ _ Hs) as (_ & -> & -> & -> & _).
  split; [apply (ranked_prefix CRITICAL true 5)|].
  split; [apply (ranked_prefix WARNING true 5)|].
  apply (ranked_prefix OK false 3).
Qed.

(** X12: a table made of weekend rows only is never CRITICAL: the critical
    count is 0, the overall status is not CRITICAL, and neither the summary
    nor the report lists a critical issue. *)
Theorem weekend_table_never_critical (w : World) (rows : DataFrame) :
  Forall (fun row => weekend row = true) rows ->
  exists s, aggregate_findings pd w (map result_of_row rows) = Ret s /\
    Summary.critical_count s = 0%nat /\
    Summary.overall_status s <> CRITICAL /\
    Summary.critical_issues s = [] /\
    critical_entries s = [].
Proof.
  intros Hw.
  assert (Hnone : filter (has_status CRITICAL) (map result_of_row rows) = []).
  { induction Hw as [|row rows Hrow _ IH]; [reflexivity|].
    cbn [map filter]. rewrite IH.
    apply weekend_not_critical in Hrow. unfold has_status.
    destruct (Evaluated.status (result_of_row row)); cbn; congruence. }
  destruct (aggregate_findings_returns pd w (map result_of_row rows))
    as [s Hs].
  exists s. split; [exact Hs|].
  destruct (aggregate_lists _ _ _ Hs) as (Hci & _).
  destruct (aggregate_scalars _ _ _ _ Hs) as (_ & Hc & _ & _ & Ho & _).
  rewrite Hnone in Hc, Hci. rewrite sort_values_nil in Hci.
  cbn in Hc, Hci.
  split; [exact Hc|]. split; [|split].
  - rewrite Ho, Hc. unfold status_of_counts.
    destruct (Summary.warning_count s); cbn; intros H; discriminate H.
  - exact Hci.
  - unfold critical_entries. rewrite Hci. reflexivity.
Qed.

(** X13: for a summary of the aggregator the report lists exactly
    min(3, critical_count) critical lines and min(2, warning_count) warning
    lines, and it lists none at all exactly when the overall status is OK. *)
Theorem report_entry_counts (w : World) (df_results : ResultFrame) :
  exists s, aggregate_findings pd w df_results = Ret s /\
    List.length (critical_entries s) = Nat.min 3 (Summary.critical_count s) /\
    List.length (warning_entries s) = Nat.min 2 (Summary.warning_count s) /\
    (Summary.overall_status s = OK <->
     critical_entries s = [] /\ warning_entries s = []).
Proof.
  destruct (aggregate_findings_returns pd w df_results) as [s Hs].
  exists s. split; [exact Hs|].
  destruct (aggregate_lists _ _ _ Hs) as (Hci & Hwi & _).
  destruct (aggregate_scalars _ _ _ _ Hs) as (_ & Hc & Hn & _ & Ho & _).
  assert (Lc : List.length (critical_entries s) = Nat.min 3 (Summary.critical_count s)).
  { unfold critical_entries.
    rewrite length_map, head_length_min, Hci, head_length_min,
      sort_values_length, Hc. lia. }
  assert (Lw : List.length (warning_entries s) = Nat.min 2 (Summary.warning_count s)).
  { unfold warning_entries.
    rewrite length_map, head_length_min, Hwi, head_length_min,
      sort_values_length, Hn. lia. }
  split; [exact Lc|]. split; [exact Lw|].
  rewrite !filter_nil_length, Lc, Lw, Ho. unfold status_of_counts.
  destruct (Summary.critical_count s), (Summary.warning_count s);
    cbn; split; intros H; try discriminate H; try reflexivity;
    try (split; reflexivity); destruct H; lia.
Qed.
End RankedLists.

Lemma worst_issues_first_witness :
  exists s, aggregate_findings reference_pandas sample_world sample_results = Ret s /\
    List.length (Summary.warning_issues s) = 2%nat /\
    List.length (Summary.top_performers s) = 1%nat.
Proof.
  destruct (worst_issues_first reference_pandas insertion_sort_perm
              insertion_sort_sorted sample_world sample_results)
    as (s & Hs & _ & (_ & _ & _ & Hw) & (_ & _ & _ & Ht)).
  exists s. split; [exact Hs|].
  pose proof sample_summary_eq as E. rewrite Hs in E. apply Ret_inj in E. subst s.
  split; [rewrite Hw | rewrite Ht]; reflexivity.
Defined.

Lemma weekend_table_never_critical_witness :
  exists s,
    aggregate_findings reference_pandas sample_world (map result_of_row weekend_frame)
    = Ret s /\
    Summary.critical_count s = 0%nat /\ Summary.overall_status s <> CRITICAL.
Proof.
  destruct (weekend_table_never_critical reference_pandas insertion_sort_perm
              sample_world weekend_frame) as (s & Hs & Hc & Ho & _).
  - repeat constructor.
  - exists s. auto.
Defined.

Lemma report_entry_counts_witness :
  exists s, aggregate_findings reference_pandas sample_world sample_results = Ret s /\
    List.length (critical_entries s) = 1%nat /\
    List.length (warning_entries s) = 2%nat.
Proof.
  destruct (report_entry_counts reference_pandas insertion_sort_perm
              sample_world sample_results) as (s & Hs & Hc & Hw & _).
  exists s. split; [exact Hs|].
  pose proof sample_summary_eq as E. rewrite Hs in E. apply Ret_inj in E. subst s.
  split; [rewrite Hc | rewrite Hw]; reflexivity.
Defined.

(** ** The views on a summary of the aggregator *)

Section Views.
Variable pd : Pandas.

Hypothesis sort_values_perm :
  forall key ascending l, Permutation l (sort_values pd key ascending l).
Hypothesis sort_values_sorted :
  forall key ascending l,
    StronglySorted (key_order key ascending) (sort_values pd key ascending l).

Lemma alert_of_result (l : Level) (class icon : string) (row : Row.t) :
  Evaluated.status (result_of_row row) = l -> l <> OK ->
  Alert.severity (make_alert l class icon (result_of_row row))
  = Evaluated.status (Alert.item (make_alert l class icon (result_of_row row))) /\
  exists v,
    hd_error (Evaluated.violations
                (Alert.item (make_alert l class icon (result_of_row row)))) = Some v /\
    Alert.issue_description (make_alert l class icon (result_of_row row)) = message v.
Proof.
  intros Hs Hl. split; [cbn [make_alert Alert.severity Alert.item]; now rewrite Hs|].
  destruct (result_has_violation row) as [v Hv]; [now rewrite Hs|].
  exists v. unfold make_alert. cbn [Alert.item Alert.issue_description].
  split; [exact Hv|].
  destruct (Evaluated.violations (result_of_row row)); [discriminate Hv|].
  now injection Hv as ->.
Qed.

(** X14: on a table of evaluated rows, every alert of the alerts view
    carries its record's status as severity and the message of the record's
    first violation as description, so the fallback text is never shown;
    the view lists min(5, critical_count) + min(5, warning_count) alerts, at
    most 10, next to the untruncated counts. *)
Theorem alerts_describe_first_violation (w : World) (rows : DataFrame) :
  exists s, aggregate_findings pd w (map result_of_row rows) = Ret s /\
    Alerts.total_count (alerts_data s)
    = (Nat.min 5 (Alerts.critical_count (alerts_data s))
       + Nat.min 5 (Alerts.warning_count (alerts_data s)))%nat /\
    (Alerts.total_count (alerts_data s) <= 10)%nat /\
    Forall (fun a =>
              Alert.severity a = Evaluated.status (Alert.item a) /\
              exists v,
                hd_error (Evaluated.violations (Alert.item a)) = Some v /\
                Alert.issue_description a = message v)
           (Alerts.alerts (alerts_data s)).
Proof.
  destruct (aggregate_findings_returns pd w (map result_of_row rows))
    as [s Hs].
  exists s. split; [exact Hs|].
  destruct (aggregate_lists pd sort_values_perm _ _ _ Hs) as (Hci & Hwi & _).
  destruct (aggregate_scalars _ _ _ _ Hs) as (_ & Hc & Hn & _).
  unfold alerts_data.
  cbn [Alerts.total_count Alerts.critical_count Alerts.warning_count Alerts.alerts].
  assert (Hlen : List.length
                   (map (make_alert CRITICAL "danger" "🚨") (Summary.critical_issues s)
                      ++ map (make_alert WARNING "warning" "⚠️")
                           (Summary.warning_issues s))
                 = (Nat.min 5 (Summary.critical_count s)
                    + Nat.min 5 (Summary.warning_count s))%nat).
  { rewrite length_app, !length_map, Hci, Hwi, !head_length_min,
      !(sort_values_length pd sort_values_perm), Hc, Hn. reflexivity. }
  split; [exact Hlen|]. split; [rewrite Hlen; lia|].
  apply Forall_app. split.
  - rewrite Hci. apply Forall_map.
    eapply Forall_impl;
      [|apply (ranked_list pd sort_values_perm sort_values_sorted
                 CRITICAL true 5)].
    cbv beta. intros r [Hr Hin].
    apply in_map_iff in Hin. destruct Hin as (row & <- & _).
    apply alert_of_result; [exact Hr | discriminate].
  - rewrite Hwi. apply Forall_map.
    eapply Forall_impl;
      [|apply (ranked_list pd sort_values_perm sort_values_sorted
                 WARNING true 5)].
    cbv beta. intros r [Hr Hin].
    apply in_map_iff in Hin. destruct Hin as (row & <- & _).
    apply alert_of_result; [exact Hr | discriminate].
Qed.

(** X15: the top performer shown by the overview is "N/A" when the table
    has no OK record; otherwise it names the region and product of an OK
    record whose [delta_vs_target] no OK record exceeds. *)
Theorem overview_top_performer (w : World) (df_results : ResultFrame) :
  exists s, aggregate_findings pd w df_results = Ret s /\
    ((forall r, In r df_results -> Evaluated.status r <> OK) ->
     Overview.top_performer_text (overview_data s) = "N/A") /\
    ((exists r, In r df_results /\ Evaluated.status r = OK) ->
     exists top,
       In top df_results /\ Evaluated.status top = OK /\
       Overview.top_performer_text (overview_data s)
       = Evaluated.region top ++ " - " ++ Evaluated.product top /\
       forall r, In r df_results -> Evaluated.status r = OK ->
                 Evaluated.delta_vs_target r <= Evaluated.delta_vs_target top).
Proof.
  destruct (aggregate_findings_returns pd w df_results) as [s Hs].
  exists s. split; [exact Hs|].
  destruct (aggregate_lists pd sort_values_perm _ _ _ Hs) as (_ & _ & Htp).
  unfold overview_data. cbn [Overview.top_performer_text]. rewrite Htp.
  pose proof (sort_values_perm Evaluated.delta_vs_target false
                (filter (has_status OK) df_results)) as HP.
  pose proof (sort_values_sorted Evaluated.delta_vs_target false
                (filter (has_status OK) df_results)) as HS.
  destruct (sort_values pd Evaluated.delta_vs_target false
              (filter (has_status OK) df_results)) as [|top sorted].
  - split; [reflexivity|].
    intros (r & Hin & Hr). exfalso.
    assert (Hx : In r (filter (has_status OK) df_results)).
    { apply filter_In. split; [assumption | now apply Level_eqb_eq]. }
    apply Permutation_sym, Permutation_nil in HP. rewrite HP in Hx. destruct Hx.
  - assert (Htop : In top (filter (has_status OK) df_results)).
    { eapply Permutation_in; [symmetry; exact HP | now left]. }
    apply filter_In in Htop. destruct Htop as [Hin Hst].
    apply Level_eqb_eq in Hst.
    split.
    + intros Hnone. elim (Hnone top Hin Hst).
    + intros _. exists top. split; [assumption|]. split; [assumption|].
      split; [reflexivity|].
      intros r Hr Hok.
      assert (Hx : In r (top :: sorted)).
      { eapply Permutation_in; [exact HP|].
        apply filter_In. split; [assumption | now apply Level_eqb_eq]. }
      apply StronglySorted_inv in HS. destruct HS as [_ HF].
      destruct Hx as [<- | Hx]; [apply Qle_refl|].
      rewrite Forall_forall in HF. apply (HF r Hx).
Qed.
End Views.

Lemma alerts_describe_first_violation_witness :
  exists s,
    aggregate_findings reference_pandas sample_world sample_results = Ret s /\
    map Alert.issue_description (Alerts.alerts (alerts_data s))
    = ["Missed target by 20.0%"; "Below target by 10.0%";
       "Sales 30.0% below 7-day average"].
Proof.
  destruct (alerts_describe_first_violation reference_pandas insertion_sort_perm
              insertion_sort_sorted sample_world sample_frame)
    as (s & Hs & _).
  exists s. split; [exact Hs|].
  pose proof sample_summary_eq as E. unfold sample_results in E.
  rewrite Hs in E. apply Ret_inj in E. subst s. vm_compute. reflexivity.
Defined.

Lemma overview_top_performer_witness :
  exists s,
    aggregate_findings reference_pandas sample_world sample_results = Ret s /\
    Overview.top_performer_text (overview_data s) = "Medan - Laptop".
Proof.
  destruct (overview_top_performer reference_pandas insertion_sort_perm
              insertion_sort_sorted sample_world sample_results)
    as (s & Hs & _ & Htop).
  exists s. split; [exact Hs|].
  destruct Htop as (top & _ & _ & Ht & _).
  - exists (result_of_row row_ok). split; [now left | reflexivity].
  - pose proof sample_summary_eq as E. rewrite Hs in E. apply Ret_inj in E. subst s.
    vm_compute. reflexivity.
Defined.

(** ** The complete analysis on a loaded table *)

Lemma aggregate_header (pd : Pandas) (w : World)
  (first : Evaluated.t) (rest : ResultFrame) (s : Summary.t) :
  aggregate_findings pd w (first :: rest) = Ret s ->
  Summary.date s = strftime_Ymd (Evaluated.date first) /\
  Summary.day_name s = Evaluated.day_name first /\
  Summary.is_weekend s = Evaluated.is_weekend first /\
  Summary.ai_insight s = None.
Proof.
  unfold aggregate_findings.
  rewrite calculate_achievement_total. unfold bind.
  intros H. injection H as <-. repeat split.
Qed.

(** X16: on a loaded table with rows the summary describes the latest day
    only: its date is the greatest date of the table, [total_rows] counts
    the rows of that date and is positive, and the report stored with it is
    the one composed from its own fields; the clock is not consulted. *)
Theorem analysis_of_latest_day (pd : Pandas) (w : World)
  (rows : DataFrame) :
  rows <> [] -> read_csv w = Ret (Dated rows) ->
  exists d s,
    max_date rows = Some d /\
    run_analysis pd w init = (mkEngine (Some (Dated rows)) (Some d), Ret s) /\
    Summary.date s = strftime_Ymd d /\
    Summary.total_rows s
    = List.length (filter (fun r => (Row.date r =? d)%Z) rows) /\
    (0 < Summary.total_rows s)%nat /\
    Summary.ai_insight s = Some (generate_ai_insight s) /\
    forall clock,
      run_analysis pd (mkWorld (Ret (Dated rows)) clock) init
      = (mkEngine (Some (Dated rows)) (Some d), Ret s).
Proof.
  intros Hne Hread.
  destruct (max_date_nonempty rows Hne) as [d Hd].
  destruct (max_date_spec rows d Hd) as [_ [r [Hin Hr]]].
  assert (Hrun : forall w', read_csv w' = Ret (Dated rows) ->
            process_daily_data w' init
            = (mkEngine (Some (Dated rows)) (Some d),
               Ret (map result_of_row
                      (filter (fun r => (Row.date r =? d)%Z) rows)))).
  { intros w' Hw'. apply process_daily_data_loaded; auto. }
  assert (Hf : In r (filter (fun r => (Row.date r =? d)%Z) rows)).
  { apply filter_In. split; [assumption | now apply Z.eqb_eq]. }
  destruct (filter (fun r => (Row.date r =? d)%Z) rows) as [|r0 latest] eqn:E;
    [destruct Hf|].
  assert (Hr0 : Row.date r0 = d).
  { assert (Hx : In r0 (filter (fun r => (Row.date r =? d)%Z) rows))
      by (rewrite E; now left).
    apply filter_In in Hx. now apply Z.eqb_eq. }
  destruct (aggregate_findings_returns pd w
              (map result_of_row (r0 :: latest))) as [s0 Hs0].
  destruct (aggregate_header _ _ _ _ _ Hs0) as (Hdate & _).
  destruct (aggregate_scalars _ _ _ _ Hs0) as (Hrows & _).
  exists d, (set_ai_insight s0 (generate_ai_insight s0)).
  split; [exact Hd|]. split; [|split; [|split; [|split; [|split]]]].
  - unfold run_analysis. rewrite (Hrun w Hread). cbn [bind].
    rewrite Hs0. reflexivity.
  - cbn [set_ai_insight Summary.date]. rewrite Hdate.
    cbn [map result_of_row Evaluated.date]. now rewrite Hr0.
  - cbn [set_ai_insight Summary.total_rows]. rewrite Hrows.
    now rewrite length_map, E.
  - cbn [set_ai_insight Summary.total_rows]. rewrite Hrows. cbn. lia.
  - reflexivity.
  - intros clock. unfold run_analysis.
    rewrite (Hrun (mkWorld (Ret (Dated rows)) clock) eq_refl). cbn [bind].
    cbn [map] in Hs0 |- *. cbn [aggregate_findings] in Hs0 |- *.
    rewrite Hs0. reflexivity.
Qed.

Lemma analysis_of_latest_day_witness :
  exists s self,
    run_analysis reference_pandas
      (mkWorld (Ret (Dated two_day_frame)) (fun _ => tuesday)) init
    = (self, Ret s) /\
    Summary.date s = "2026-11-07" /\ Summary.total_rows s = 1%nat.
Proof.
  destruct (analysis_of_latest_day reference_pandas
              (mkWorld (Ret (Dated two_day_frame)) (fun _ => tuesday))
              two_day_frame)
    as (d & s & Hd & Hrun & Hdate & Hrows & _).
  - discriminate.
  - reflexivity.
  - exists s. eexists. split; [exact Hrun|].
    vm_compute in Hd. apply (f_equal (fun o => match o with Some x => x | None => 0%Z end)) in Hd.
    cbn in Hd. subst d.
    split; [rewrite Hdate | rewrite Hrows]; vm_compute; reflexivity.
Defined.

(** ** Upload filter *)

Lemma rsplit_dot_spec (s stem ext : string) :
  rsplit_dot s = Some (stem, ext) -> s = stem ++ "." ++ ext.
Proof.
  revert stem. induction s as [|c s IH]; intros stem H; [discriminate|].
  cbn [rsplit_dot] in H.
  destruct (rsplit_dot s) as [[stem' ext']|].
  - injection H as <- <-. cbn. now rewrite (IH stem' eq_refl).
  - destruct (Ascii.eqb_spec c "."%char) as [-> |]; [|discriminate].
    injection H as <- <-. reflexivity.
Qed.

Lemma rsplit_dot_app (stem ext : string) :
  rsplit_dot ext = None -> rsplit_dot (stem ++ "." ++ ext) = Some (stem, ext).
Proof.
  intros H. induction stem as [|c stem IH].
  - cbn. now rewrite H.
  - cbn [append rsplit_dot]. cbn [append] in IH. now rewrite IH.
Qed.

Lemma contains_dot_app (stem ext : string) :
  contains "." (stem ++ "." ++ ext) = true.
Proof.
  induction stem as [|c stem IH].
  - cbn [append contains].
    assert (P : String.prefix "." (String "." ext) = true)
      by (apply prefix_correct; destruct ext; reflexivity).
    now rewrite P.
  - cbn [append contains]. cbn [append] in IH. rewrite IH.
    destruct (String.prefix "." (String c (stem ++ String "." ext))); reflexivity.
Qed.

Lemma lower_ascii_dot (c : ascii) (x : ascii) :
  lower_ascii c = x -> x <> "."%char -> Ascii.eqb c "."%char = false.
Proof.
  intros H Hx. destruct (Ascii.eqb_spec c "."%char) as [-> |]; [|reflexivity].
  elim Hx. rewrite <- H. reflexivity.
Qed.

Lemma csv_has_no_dot (ext : string) :
  lower ext = "csv" -> rsplit_dot ext = None.
Proof.
  destruct ext as [|a [|b [|c [|d rest]]]]; cbn [lower]; intros H;
    try discriminate H.
  injection H as Ha Hb Hc.
  cbn [rsplit_dot].
  rewrite (lower_ascii_dot a _ Ha), (lower_ascii_dot b _ Hb),
    (lower_ascii_dot c _ Hc); [reflexivity | | |]; discriminate.
Qed.

(** X17: a file name passes the upload filter exactly when it ends in a dot
    followed by "csv" in any mix of upper and lower case; a name without a
    dot is rejected without an error. *)
Theorem allowed_file_iff_csv (filename : string) :
  allowed_file filename = true <->
  exists stem ext, filename = stem ++ "." ++ ext /\ lower ext = "csv".
Proof.
  unfold allowed_file, ALLOWED_EXTENSIONS. split.
  - intros H. apply andb_true_iff in H. destruct H as [_ H].
    destruct (rsplit_dot filename) as [[stem ext]|] eqn:E; [|discriminate].
    cbn [existsb] in H. rewrite orb_false_r in H. apply String.eqb_eq in H.
    exists stem, ext. split; [now apply rsplit_dot_spec | assumption].
  - intros (stem & ext & -> & H).
    rewrite contains_dot_app, (rsplit_dot_app _ _ (csv_has_no_dot _ H)).
    cbn [andb existsb]. rewrite H. reflexivity.
Qed.

(** ** Import form *)

Lemma count_distinct_bounds (names : list string) :
  (count_distinct names <= List.length names)%nat /\
  (count_distinct names = 0%nat <-> names = []).
Proof.
  unfold count_distinct. split.
  - induction names as [|x l IH]; cbn; [lia|].
    destruct (in_dec string_dec x l); cbn; lia.
  - split.
    + intros H. destruct names as [|x l]; [reflexivity|].
      exfalso.
      assert (Hx : In x (nodup string_dec (x :: l)))
        by (apply nodup_In; now left).
      destruct (nodup string_dec (x :: l)); [destruct Hx | discriminate H].
    + intros ->. reflexivity.
Qed.

(** X18: the import form counts regions over the flagged items only: the
    number shown is at most [critical_count + warning_count] and is 0
    exactly when the overall status is OK, however many rows and regions
    the table has. *)
Theorem import_form_counts_flagged_regions (pd : Pandas) (w : World)
  (df_results : ResultFrame) :
  exists s, aggregate_findings pd w df_results = Ret s /\
    Current.total_rows (current_data s) = List.length df_results /\
    (Current.regions (current_data s)
     <= Summary.critical_count s + Summary.warning_count s)%nat /\
    (Current.regions (current_data s) = 0%nat <-> Summary.overall_status s = OK).
Proof.
  destruct (aggregate_findings_returns pd w df_results) as [s Hs].
  exists s. split; [exact Hs|].
  destruct (aggregate_scalars _ _ _ _ Hs) as (Hr & Hc & Hn & _ & Ho & Hf).
  unfold current_data. cbn [Current.total_rows Current.regions].
  split; [exact Hr|].
  assert (Hlen : List.length (Summary.flagged_items s)
                 = (Summary.critical_count s + Summary.warning_count s)%nat)
    by (rewrite Hf, Hc, Hn; apply flagged_length).
  destruct (count_distinct_bounds (map Evaluated.region (Summary.flagged_items s)))
    as [Hb Hz].
  rewrite length_map in Hb.
  assert (Hok : Summary.overall_status s = OK <->
                (Summary.critical_count s + Summary.warning_count s = 0)%nat).
  { rewrite Ho. unfold status_of_counts.
    destruct (Summary.critical_count s), (Summary.warning_count s);
      cbn; split; intros H; try discriminate H; try reflexivity; lia. }
  destruct (Summary.flagged_items s) as [|r l] eqn:E; cbn [is_empty].
  - split; [lia|]. rewrite Hok, <- Hlen. tauto.
  - split; [lia|]. rewrite Hok, <- Hlen, Hz. cbn. split; intros H; discriminate H.
Qed.
